(** * File Share Platform: the download-code keyed file lifecycle

    A shallow embedding of the Python sources

      - [database/mongodb_client.py]       (module [Mongo])
      - [main.py]                          (module [Main])
      - [database/supabase_client.py]      (module [Supabase])
      - [routes/file_routes.py]            (module [Routes])
      - [database/mongodb_client_sync.py]  (module [MongoSync])
      - [streamlit.py]                     (module [Streamlit])

    and the properties of code generation, lookup, upload, download and
    the expiry sweep.

    Conventions.  A Python [str] is the [string] of its UTF-8 bytes, so an
    ASCII text is the string of its characters.  [upper] and [lower] change
    the ASCII letters only, which is what [str.upper] and [str.lower] do on
    ASCII text; [latin1] tells whether a text can be written in Latin-1, as
    the values of HTTP headers must be.  A [datetime] is a number of
    microseconds; every read of [datetime.utcnow()] is an explicit argument
    of the function that performs it, and a date written to MongoDB is cut
    to the millisecond, as BSON keeps it.  The two external stores (the
    [files] collection and the GridFS bucket, resp. the [files] table and
    the storage bucket) are explicit state; whether one of their calls
    raises is decided by an environment record that the functions take as
    their first argument. *)

From Stdlib Require Import ZArith String Ascii List Lia DecimalString.
From stdpp Require Import base option list gmap strings.

Open Scope Z_scope.

(** ** Python strings *)

Module PyStr.

Definition chars (s : string) : list ascii := list_ascii_of_string s.
Definition str (l : list ascii) : string := string_of_list_ascii l.

(** [c.upper()] for one ASCII character. *)
Definition upper_ascii (c : ascii) : ascii :=
  let n := N_of_ascii c in
  if ((97 <=? n) && (n <=? 122))%N then ascii_of_N (n - 32) else c.

(** [s.upper()] *)
Definition upper (s : string) : string := str (map upper_ascii (chars s)).

(** [s.replace(c, '')] for a one-character [c]. *)
Definition remove_char (c : ascii) (s : string) : string :=
  str (filter (fun x => x <> c) (chars s)).

(** [s[i:j]] for [0 <= i <= j]. *)
Definition slice (l : list ascii) (i j : nat) : list ascii :=
  take (j - i) (drop i l).

(** [s[:n]] for any integer [n]: a negative [n] counts from the end. *)
Definition slice_upto (s : string) (n : Z) : string :=
  let len := Z.of_nat (String.length s) in
  let stop := if n <? 0 then Z.max 0 (len + n) else Z.min n len in
  str (take (Z.to_nat stop) (chars s)).

(** Membership of a character in an alphabet given as a string. *)
Definition in_alphabet (alphabet : string) (c : ascii) : bool :=
  existsb (Ascii.eqb c) (chars alphabet).

Definition all_in (alphabet : string) (s : string) : bool :=
  forallb (in_alphabet alphabet) (chars s).

Definition hex_lower : string := "0123456789abcdef".
Definition hex_upper : string := "0123456789ABCDEF".
Definition alnum_upper : string := "ABCDEFGHIJKLMNOPQRSTUVWXYZ0123456789".

(** The double quote, for building header values. *)
Definition dquote : string := String (ascii_of_N 34) EmptyString.

(** [str(n)] for an integer. *)
Definition decimal (n : Z) : string := NilZero.string_of_int (Z.to_int n).

(** Every character of [s] is an ASCII one. *)
Definition is_ascii (s : string) : bool :=
  forallb (fun c => (N_of_ascii c <? 128)%N) (chars s).

(** [len(s)], the number of characters: in UTF-8 every character has one
    byte that is not a continuation byte [10xxxxxx]. *)
Definition len (s : string) : nat :=
  length (List.filter
            (fun c => negb ((128 <=? N_of_ascii c) && (N_of_ascii c <? 192))%N)
            (chars s)).

(** Whether [s.encode("latin-1")] succeeds, that is, whether every
    character is below U+0100: in UTF-8 these are the characters whose
    first byte is below [0xC4]. *)
Definition latin1 (s : string) : bool :=
  forallb (fun c => (N_of_ascii c <? 196)%N) (chars s).

End PyStr.

Import PyStr.

(** ** The [uuid] module of the Python library, as far as the code uses it *)

Module Uuid.

(** [uuid.uuid4()]: sixteen random bytes, read as an integer, with the
    variant and version bits forced. *)
Definition uuid4 (random_bytes : Z) : Z :=
  let i := Z.land random_bytes (Z.ones 128) in
  let i := Z.land i (Z.lnot (Z.shiftl 0xc000 48)) in
  let i := Z.lor i (Z.shiftl 0x8000 48) in
  let i := Z.land i (Z.lnot (Z.shiftl 0xf000 64)) in
  Z.lor i (Z.shiftl 4 76).

Definition hex_digit (d : Z) : ascii :=
  match String.get (Z.to_nat d) hex_lower with
  | Some c => c
  | None => "0"%char
  end.

(** ['%032x' % u]: the 32 hexadecimal digits of a 128-bit integer, most
    significant first. *)
Definition hex32 (u : Z) : list ascii :=
  map (fun i => hex_digit (Z.land (Z.shiftr u (4 * Z.of_nat i)) 15))
      (rev (seq 0 32)).

(** [str(u)]: the digits in groups of 8-4-4-4-12 joined by hyphens. *)
Definition to_str (u : Z) : string :=
  let h := hex32 u in
  str (slice h 0 8 ++ "-"%char :: slice h 8 12 ++ "-"%char ::
       slice h 12 16 ++ "-"%char :: slice h 16 20 ++ "-"%char :: drop 20 h).

End Uuid.

(** ** Utility functions shared by the three database clients *)

(** [generate_download_code(length=8)]; [random_bytes] is the draw of
    [uuid.uuid4()]. *)
Definition generate_download_code (random_bytes : Z) (length : Z) : string :=
  slice_upto (upper (remove_char "-" (Uuid.to_str (Uuid.uuid4 random_bytes)))) length.

Definition default_max_size : Z := 100 * 1024 * 1024.

(** [validate_file_size(file_size, max_size=100MB)] *)
Definition validate_file_size (file_size max_size : Z) : bool :=
  file_size <=? max_size.

(** ** Values, exceptions and the monad of the store calls *)

Definition ObjectId := N.
Definition datetime := Z.
Definition bytes := list Byte.byte.

(** [timedelta(days=d)], in microseconds. *)
Definition timedelta_days (d : Z) : Z := d * 86400000000.

(** FastAPI's [UploadFile]: [content] is what [await file.read()] returns. *)
Record UploadFile := {
  filename : string;
  content_type : string;
  size : Z;
  content : bytes
}.

(** The exceptions that occur: FastAPI's [HTTPException], and the others
    (those of the database and storage drivers and of the Python library),
    which are kept as their message. *)
Inductive exn :=
| DriverError (msg : string)
| HTTPException (status_code : Z) (detail : string).

(** [str(e)]; Starlette renders an [HTTPException] as its status code, a
    colon and its detail. *)
Definition exn_str (e : exn) : string :=
  match e with
  | DriverError msg => msg
  | HTTPException c d => (decimal c ++ ": " ++ d)%string
  end.

Inductive result (A : Type) :=
| Ok (a : A)
| Raise (e : exn).
Arguments Ok {A} a.
Arguments Raise {A} e.

(** A call runs on the state [S] of the stores and either returns or
    raises; the state it leaves behind is kept in both cases. *)
Definition M (S A : Type) : Type := S -> result A * S.

Definition ret {S A} (a : A) : M S A := fun s => (Ok a, s).
Definition raise {S A} (e : exn) : M S A := fun s => (Raise e, s).

Definition bind {S A B} (m : M S A) (k : A -> M S B) : M S B :=
  fun s => match m s with
           | (Ok a, s') => k a s'
           | (Raise e, s') => (Raise e, s')
           end.

(** [try: m  except Exception as e: h e] *)
Definition try_except {S A} (m : M S A) (h : exn -> M S A) : M S A :=
  fun s => match m s with
           | (Ok a, s') => (Ok a, s')
           | (Raise e, s') => h e s'
           end.

Definition modify {S} (f : S -> S) : M S unit := fun s => (Ok tt, f s).

Notation "x <- m ;; k" := (bind m (fun x => k))
  (at level 100, m at next level, right associativity).

(** *** Exceptions of the Python library *)

(** [UnicodeEncodeError] of [s.encode("latin-1")]; the message of the
    library also names the first character that cannot be written and its
    position, which are left out here. *)
Definition UnicodeEncodeError : exn :=
  DriverError "'latin-1' codec can't encode character: ordinal not in range(256)".

(** [NameError] for a name that the module never binds. *)
Definition NameError (name : string) : exn :=
  DriverError ("name '" ++ name ++ "' is not defined").

(** *** Arithmetic of [datetime]

    A [datetime] lies between [datetime.min] (year 1) and [datetime.max]
    (year 9999), a [timedelta] has at most 999999999 days; what leaves
    these ranges raises [OverflowError]. *)

Definition datetime_min : datetime := -62135596800000000.
Definition datetime_max : datetime := 253402300799999999.

(** [timedelta(days=d)]: the number of days is first read as a C [int],
    then checked against the range of [timedelta]. *)
Definition timedelta {S} (d : Z) : M S Z :=
  if (d <? -2147483648) || (2147483647 <? d) then
    raise (DriverError "Python int too large to convert to C int")
  else if Z.abs d >? 999999999 then
    raise (DriverError ("days=" ++ decimal d ++
                        "; must have magnitude <= 999999999"))
  else ret (timedelta_days d).

(** [t + delta] *)
Definition datetime_add {S} (t : datetime) (delta : Z) : M S datetime :=
  if (datetime_min <=? t + delta) && (t + delta <=? datetime_max)
  then ret (t + delta)
  else raise (DriverError "date value out of range").

(** A date as BSON keeps it: milliseconds, the microseconds cut off. *)
Definition bson_date (t : datetime) : datetime := 1000 * (t / 1000).

(** ** database/mongodb_client.py *)

Module Mongo.

(** A file of the GridFS bucket. *)
Record GridMeta := {
  meta_content_type : string;
  meta_download_code : string;
  meta_upload_date : datetime;
  original_size : Z
}.

Record GridFile := {
  grid_filename : string;
  grid_data : bytes;
  grid_metadata : GridMeta
}.

(** A document of the [files] collection. *)
Record FileDoc := {
  _id : ObjectId;
  download_code : string;
  original_filename : string;
  file_size : Z;
  mime_type : string;
  gridfs_id : ObjectId;
  upload_date : datetime;
  download_count : Z;
  expiry_date : option datetime;
  is_active : bool
}.

(** The database: the collection in insertion order, the bucket, and the
    source of [ObjectId()] values, which never repeat. *)
Record World := {
  files : list FileDoc;
  gridfs : gmap ObjectId GridFile;
  next_oid : ObjectId
}.

(** Which driver calls raise, and with what message. *)
Record Env := {
  upload_error : option string;
  open_error : ObjectId -> option string;
  delete_error : ObjectId -> option string;
  insert_error : option string;
  find_error : option string;
  update_error : ObjectId -> option string
}.

Definition no_faults : Env :=
  {| upload_error := None; open_error := fun _ => None;
     delete_error := fun _ => None; insert_error := None;
     find_error := None; update_error := fun _ => None |}.

Definition empty : World := {| files := []; gridfs := ∅; next_oid := 0%N |}.

(** [gridfs.errors.NoFile] *)
Definition NoFile : exn := DriverError "no file in gridfs with that _id".

Definition set_is_active (b : bool) (d : FileDoc) : FileDoc :=
  {| _id := _id d; download_code := download_code d;
     original_filename := original_filename d; file_size := file_size d;
     mime_type := mime_type d; gridfs_id := gridfs_id d;
     upload_date := upload_date d; download_count := download_count d;
     expiry_date := expiry_date d; is_active := b |}.

Definition inc_download_count (d : FileDoc) : FileDoc :=
  {| _id := _id d; download_code := download_code d;
     original_filename := original_filename d; file_size := file_size d;
     mime_type := mime_type d; gridfs_id := gridfs_id d;
     upload_date := upload_date d; download_count := download_count d + 1;
     expiry_date := expiry_date d; is_active := is_active d |}.

(** The first document with the given [_id] is replaced by its update; the
    count of documents matched is returned with the list. *)
Fixpoint update_first (id : ObjectId) (f : FileDoc -> FileDoc)
    (l : list FileDoc) : list FileDoc * Z :=
  match l with
  | [] => ([], 0)
  | d :: l' =>
      if (_id d =? id)%N then (f d :: l', 1)
      else let '(l'', n) := update_first id f l' in (d :: l'', n)
  end.

(** What BSON keeps of the metadata of a GridFS file and of a document:
    the dates are cut to the millisecond. *)
Definition bson_meta (m : GridMeta) : GridMeta :=
  {| meta_content_type := meta_content_type m;
     meta_download_code := meta_download_code m;
     meta_upload_date := bson_date (meta_upload_date m);
     original_size := original_size m |}.

Definition bson_doc (d : FileDoc) : FileDoc :=
  {| _id := _id d; download_code := download_code d;
     original_filename := original_filename d; file_size := file_size d;
     mime_type := mime_type d; gridfs_id := gridfs_id d;
     upload_date := bson_date (upload_date d);
     download_count := download_count d;
     expiry_date := bson_date <$> expiry_date d; is_active := is_active d |}.

(** The query [{"download_code": code, "is_active": True}] *)
Definition by_code (code : string) (d : FileDoc) : bool :=
  String.eqb (download_code d) code && is_active d.

(** The query [{"expiry_date": {"$lte": now}, "is_active": True}] *)
Definition expired (now : datetime) (d : FileDoc) : bool :=
  match expiry_date d with
  | Some e => e <=? now
  | None => false
  end && is_active d.

Section Driver.

Variable env : Env.

Definition new_ObjectId : M World ObjectId :=
  fun w => (Ok (next_oid w),
            {| files := files w; gridfs := gridfs w;
               next_oid := N.succ (next_oid w) |}).

(** [gridfs_bucket.upload_from_stream(filename, data, metadata=...)] *)
Definition upload_from_stream (name : string) (data : bytes)
    (meta : GridMeta) : M World ObjectId :=
  match upload_error env with
  | Some msg => raise (DriverError msg)
  | None =>
      id <- new_ObjectId ;;
      _ <- modify (fun w =>
             {| files := files w;
                gridfs := <[id := {| grid_filename := name; grid_data := data;
                                     grid_metadata := bson_meta meta |}]>
                            (gridfs w);
                next_oid := next_oid w |}) ;;
      ret id
  end.

(** [gridfs_bucket.open_download_stream(id)] *)
Definition open_download_stream (id : ObjectId) : M World GridFile :=
  match open_error env id with
  | Some msg => raise (DriverError msg)
  | None => fun w =>
      match gridfs w !! id with
      | Some f => (Ok f, w)
      | None => (Raise NoFile, w)
      end
  end.

(** [gridfs_bucket.delete(id)] *)
Definition gridfs_delete (id : ObjectId) : M World unit :=
  match delete_error env id with
  | Some msg => raise (DriverError msg)
  | None => fun w =>
      match gridfs w !! id with
      | Some _ => (Ok tt, {| files := files w; gridfs := delete id (gridfs w);
                             next_oid := next_oid w |})
      | None => (Raise NoFile, w)
      end
  end.

(** [files_collection.insert_one(doc)]: the collection receives the
    document as BSON encodes it; the dictionary of the caller keeps its
    own dates. *)
Definition insert_one (doc : FileDoc) : M World unit :=
  match insert_error env with
  | Some msg => raise (DriverError msg)
  | None => modify (fun w => {| files := files w ++ [bson_doc doc];
                                gridfs := gridfs w;
                                next_oid := next_oid w |})
  end.

(** [files_collection.find_one(query)] *)
Definition find_one (query : FileDoc -> bool) : M World (option FileDoc) :=
  match find_error env with
  | Some msg => raise (DriverError msg)
  | None => fun w => (Ok (List.find query (files w)), w)
  end.

(** [files_collection.find(query)], read to the end. *)
Definition find (query : FileDoc -> bool) : M World (list FileDoc) :=
  match find_error env with
  | Some msg => raise (DriverError msg)
  | None => fun w => (Ok (List.filter query (files w)), w)
  end.

(** [files_collection.update_one({"_id": id}, update)]; the result is the
    count of documents matched, which for [$inc] is [modified_count]. *)
Definition update_one (id : ObjectId) (f : FileDoc -> FileDoc) : M World Z :=
  match update_error env id with
  | Some msg => raise (DriverError msg)
  | None => fun w =>
      let '(l, n) := update_first id f (files w) in
      (Ok n, {| files := l; gridfs := gridfs w; next_oid := next_oid w |})
  end.

(** *** The functions of the client *)

(** [upload_file_to_mongodb(file, download_code)]; [now] is the
    [upload_date] of the GridFS metadata. *)
Definition upload_file_to_mongodb (now : datetime) (file : UploadFile)
    (code : string) : M World ObjectId :=
  try_except
    (let file_content := content file in
     file_id <- upload_from_stream (filename file) file_content
                  {| meta_content_type := content_type file;
                     meta_download_code := code;
                     meta_upload_date := now;
                     original_size := Z.of_nat (length file_content) |} ;;
     ret file_id)
    (fun e => raise (HTTPException 500 ("File upload failed: " ++ exn_str e))).

(** [download_file_from_mongodb(gridfs_id)] *)
Definition download_file_from_mongodb (id : ObjectId) : M World (bytes * string) :=
  try_except
    (grid_out <- open_download_stream id ;;
     ret (grid_data grid_out, grid_filename grid_out))
    (fun e => raise (HTTPException 404 ("File download failed: " ++ exn_str e))).

(** [create_file_record(db, download_code, file, gridfs_id)]; [now_upload]
    and [now_expiry] are its two reads of the clock, which is taken to be
    more than seven days before [datetime.max], so that the expiry date is
    a [datetime]. *)
Definition create_file_record (now_upload now_expiry : datetime)
    (code : string) (file : UploadFile) (gid : ObjectId) : M World FileDoc :=
  try_except
    (oid <- new_ObjectId ;;
     let file_record :=
       {| _id := oid;
          download_code := upper code;
          original_filename := filename file;
          file_size := size file;
          mime_type := content_type file;
          gridfs_id := gid;
          upload_date := now_upload;
          download_count := 0;
          expiry_date := Some (now_expiry + timedelta_days 7);
          is_active := true |} in
     _ <- insert_one file_record ;;
     ret file_record)
    (fun e => raise (HTTPException 500
                       ("Failed to create file record: " ++ exn_str e))).

(** [get_file_by_code(db, download_code)] *)
Definition get_file_by_code (code : string) : M World (option FileDoc) :=
  try_except
    (file_record <- find_one (by_code (upper code)) ;;
     ret file_record)
    (fun _ => ret None).

(** [increment_download_count(db, file_id)] *)
Definition increment_download_count (id : ObjectId) : M World bool :=
  try_except
    (modified_count <- update_one id inc_download_count ;;
     ret (modified_count >? 0))
    (fun _ => ret false).

(** The body of the loop of [cleanup_expired_files]. *)
Definition cleanup_one (file_record : FileDoc) (cleaned_count : Z) : M World Z :=
  try_except
    (_ <- gridfs_delete (gridfs_id file_record) ;;
     _ <- update_one (_id file_record) (set_is_active false) ;;
     ret (cleaned_count + 1))
    (fun _ => ret cleaned_count).

Fixpoint cleanup_loop (expired_files : list FileDoc) (cleaned_count : Z)
    : M World Z :=
  match expired_files with
  | [] => ret cleaned_count
  | file_record :: rest =>
      n <- cleanup_one file_record cleaned_count ;;
      cleanup_loop rest n
  end.

(** [cleanup_expired_files()]; [now] is its read of the clock. *)
Definition cleanup_expired_files (now : datetime) : M World Z :=
  try_except
    (expired_files <- find (expired now) ;;
     cleanup_loop expired_files 0)
    (fun _ => ret 0).

End Driver.

End Mongo.

(** ** main.py *)

Module Main.

Import Mongo.

Definition MAX_FILE_SIZE : Z := 100 * 1024 * 1024.

Record JSONBody := {
  success : bool;
  detail : string;
  message : string
}.

(** What an endpoint answers: the two success dictionaries, a streamed
    file, or a [JSONResponse] with a status code. *)
Inductive Response :=
| UploadOk (code name : string) (fsize : Z)
| PreviewOk (name : string) (fsize : Z) (mime : string)
    (uploaded : datetime) (downloads : Z)
| StreamingResponse (body : bytes) (media_type : string)
    (content_disposition : string)
| JSONResponse (status_code : Z) (body : JSONBody).

Section Endpoints.

Variable env : Env.

(** [POST /api/upload]; [random_bytes] is the draw of the code and the
    three times are the reads of the clock, in order. *)
Definition upload_file (random_bytes : Z) (t_blob t_upload t_expiry : datetime)
    (file : UploadFile) : M World Response :=
  try_except
    (if negb (validate_file_size (size file) default_max_size) then
       ret (JSONResponse 413
              {| success := false;
                 detail := "File size exceeds 100MB limit";
                 message := "File too large" |})
     else
       let code := generate_download_code random_bytes 8 in
       file_id <- upload_file_to_mongodb env t_blob file code ;;
       file_record <- create_file_record env t_upload t_expiry code file file_id ;;
       ret (UploadOk code (filename file) (size file)))
    (fun e =>
       ret (JSONResponse 500
              {| success := false; detail := exn_str e;
                 message := "Upload failed" |})).

(** [GET /api/preview/{download_code}]; the upload date is kept as the
    [datetime] that [isoformat()] renders. *)
Definition preview_file (code : string) : M World Response :=
  try_except
    (file_record <- get_file_by_code env (upper code) ;;
     match file_record with
     | None =>
         ret (JSONResponse 404
                {| success := false; detail := "Invalid download code";
                   message := "File not found" |})
     | Some r =>
         ret (PreviewOk (original_filename r) (file_size r) (mime_type r)
                (upload_date r) (download_count r))
     end)
    (fun e =>
       ret (JSONResponse 500
              {| success := false; detail := exn_str e;
                 message := "Preview failed" |})).

(** [StreamingResponse(content, media_type=..., headers={"Content-Disposition":
    ...})]: the constructor writes the header values in Latin-1, first
    those of [headers], then the media type, and raises when one of them
    cannot be written. *)
Definition new_StreamingResponse (body : bytes) (media_type : string)
    (content_disposition : string) : M World Response :=
  if latin1 content_disposition && latin1 media_type
  then ret (StreamingResponse body media_type content_disposition)
  else raise UnicodeEncodeError.

(** [GET /api/download/{download_code}]; the response is built inside the
    [try], after the count was incremented. *)
Definition download_file (code : string) : M World Response :=
  try_except
    (file_record <- get_file_by_code env (upper code) ;;
     match file_record with
     | None => raise (HTTPException 404 "Invalid download code")
     | Some r =>
         downloaded <- download_file_from_mongodb env (gridfs_id r) ;;
         let '(file_content, name) := downloaded in
         _ <- increment_download_count env (_id r) ;;
         new_StreamingResponse file_content (mime_type r)
           ("attachment; filename=" ++ dquote ++ name ++ dquote)
     end)
    (fun e =>
       match e with
       | HTTPException _ _ => raise e
       | _ => raise (HTTPException 500 ("Download failed: " ++ exn_str e))
       end).

(** The two exception handlers of the application. *)
Definition http_exception_handler (status : Z) (d : string) : Response :=
  JSONResponse status
    {| success := false; detail := d; message := "Request failed" |}.

Definition general_exception_handler (e : exn) : Response :=
  JSONResponse 500
    {| success := false; detail := "Internal server error";
       message := exn_str e |}.

(** What the client receives from an endpoint once the handlers ran. *)
Definition respond (endpoint : M World Response) (w : World) : Response * World :=
  match endpoint w with
  | (Ok r, w') => (r, w')
  | (Raise (HTTPException c d), w') => (http_exception_handler c d, w')
  | (Raise e, w') => (general_exception_handler e, w')
  end.

End Endpoints.

End Main.

(** ** database/supabase_client.py *)

Module Supabase.

(** A row of the [files] table; [id] is the primary key and
    [download_code] has a unique index. *)
Record FileRecord := {
  id : string;
  download_code : string;
  original_filename : string;
  file_size : Z;
  mime_type : string;
  storage_path : string;
  upload_date : datetime;
  download_count : Z;
  expiry_date : option datetime;
  is_active : bool
}.

(** The table in insertion order, the storage bucket by path, and the
    deletions of storage objects handed to the event loop with
    [asyncio.create_task] and not yet run. *)
Record World := {
  rows : list FileRecord;
  storage : gmap string bytes;
  tasks : list string
}.

(** Which calls raise, and whether an event loop is running when
    [asyncio.create_task] is called. *)
Record Env := {
  query_error : option string;
  commit_error : option string;
  storage_upload_error : option string;
  storage_download_error : string -> option string;
  loop_running : bool
}.

Definition no_faults : Env :=
  {| query_error := None; commit_error := None; storage_upload_error := None;
     storage_download_error := fun _ => None; loop_running := true |}.

Definition empty : World := {| rows := []; storage := ∅; tasks := [] |}.

Definition IntegrityError : exn :=
  DriverError "duplicate key value violates unique constraint".

Definition set_is_active (b : bool) (r : FileRecord) : FileRecord :=
  {| id := id r; download_code := download_code r;
     original_filename := original_filename r; file_size := file_size r;
     mime_type := mime_type r; storage_path := storage_path r;
     upload_date := upload_date r; download_count := download_count r;
     expiry_date := expiry_date r; is_active := b |}.

Definition inc_download_count (r : FileRecord) : FileRecord :=
  {| id := id r; download_code := download_code r;
     original_filename := original_filename r; file_size := file_size r;
     mime_type := mime_type r; storage_path := storage_path r;
     upload_date := upload_date r; download_count := download_count r + 1;
     expiry_date := expiry_date r; is_active := is_active r |}.

(** The filter [download_code == code, is_active == True] *)
Definition by_code (code : string) (r : FileRecord) : bool :=
  String.eqb (download_code r) code && is_active r.

(** The filter [expiry_date <= now, is_active == True]; a null
    [expiry_date] does not satisfy the comparison. *)
Definition expired (now : datetime) (r : FileRecord) : bool :=
  match expiry_date r with
  | Some e => e <=? now
  | None => false
  end && is_active r.

Section Client.

Variable env : Env.

(** [db.query(FileRecord).filter(...)], with [.first()] or [.all()]. *)
Definition query_first (f : FileRecord -> bool) : M World (option FileRecord) :=
  match query_error env with
  | Some msg => raise (DriverError msg)
  | None => fun w => (Ok (List.find f (rows w)), w)
  end.

Definition query_all (f : FileRecord -> bool) : M World (list FileRecord) :=
  match query_error env with
  | Some msg => raise (DriverError msg)
  | None => fun w => (Ok (List.filter f (rows w)), w)
  end.

(** [db.add(r); db.commit()]: the insert is refused when the primary key
    or the code is already in the table. *)
Definition add_commit (r : FileRecord) : M World unit :=
  match commit_error env with
  | Some msg => raise (DriverError msg)
  | None => fun w =>
      if existsb (fun r' => String.eqb (id r') (id r) ||
                            String.eqb (download_code r') (download_code r))
           (rows w)
      then (Raise IntegrityError, w)
      else (Ok tt, {| rows := rows w ++ [r]; storage := storage w;
                      tasks := tasks w |})
  end.

(** [db.commit()] after the rows selected by [sel] were changed by [f]. *)
Definition update_commit (sel : FileRecord -> bool)
    (f : FileRecord -> FileRecord) : M World unit :=
  match commit_error env with
  | Some msg => raise (DriverError msg)
  | None =>
      modify (fun w =>
        {| rows := map (fun r => if sel r then f r else r) (rows w);
           storage := storage w; tasks := tasks w |})
  end.

(** [asyncio.create_task(delete_file_from_supabase(path))]: without a
    running loop the call raises [RuntimeError]. *)
Definition create_delete_task (path : string) : M World unit :=
  if loop_running env then
    modify (fun w => {| rows := rows w; storage := storage w;
                        tasks := tasks w ++ [path] |})
  else raise (DriverError "no running event loop").

(** [upload_file_to_supabase(file, file_path)]; [upsert] is off, so an
    existing path is refused. *)
Definition upload_file_to_supabase (file : UploadFile) (file_path : string)
    : M World Z :=
  try_except
    (let file_content := content file in
     _ <- match storage_upload_error env with
          | Some msg => raise (DriverError msg)
          | None => fun w =>
              match storage w !! file_path with
              | Some _ => (Raise (DriverError "The resource already exists"), w)
              | None => (Ok tt, {| rows := rows w;
                                   storage := <[file_path := file_content]> (storage w);
                                   tasks := tasks w |})
              end
          end ;;
     ret (Z.of_nat (length file_content)))
    (fun e => raise (HTTPException 500 ("Upload failed: " ++ exn_str e))).

(** [download_file_from_supabase(file_path)]; an empty response counts as
    missing. *)
Definition download_file_from_supabase (file_path : string) : M World bytes :=
  try_except
    (response <- match storage_download_error env file_path with
                 | Some msg => raise (DriverError msg)
                 | None => fun w =>
                     match storage w !! file_path with
                     | Some b => (Ok b, w)
                     | None => (Raise (DriverError "Object not found"), w)
                     end
                 end ;;
     match response with
     | [] => raise (HTTPException 404 "File not found in storage")
     | _ => ret response
     end)
    (fun e => raise (HTTPException 404 ("File download failed: " ++ exn_str e))).

(** [create_file_record(db, download_code, file, file_path, expiry_days=7)];
    [uuid_bytes] is the draw of the row's [id].  The expiry date is
    computed, inside the [try], before the row is added. *)
Definition create_file_record (uuid_bytes : Z) (now_upload now_expiry : datetime)
    (code : string) (file : UploadFile) (file_path : string) (expiry_days : Z)
    : M World FileRecord :=
  try_except
    (expiry <- (if expiry_days >? 0
                then delta <- timedelta expiry_days ;;
                     t <- datetime_add now_expiry delta ;;
                     ret (Some t)
                else ret None) ;;
     let file_record :=
       {| id := Uuid.to_str (Uuid.uuid4 uuid_bytes);
          download_code := code;
          original_filename := filename file;
          file_size := size file;
          mime_type := content_type file;
          storage_path := file_path;
          upload_date := now_upload;
          download_count := 0;
          expiry_date := expiry;
          is_active := true |} in
     _ <- add_commit file_record ;;
     ret file_record)
    (fun e => raise (HTTPException 500
                       ("Failed to create file record: " ++ exn_str e))).

(** [get_file_by_code(db, download_code)] *)
Definition get_file_by_code (code : string) : M World (option FileRecord) :=
  try_except (query_first (by_code (upper code))) (fun _ => ret None).

(** The loop of [cleanup_expired_files]: the deletion of each storage
    object is handed to the event loop and, whatever becomes of that, the
    row is counted; its [is_active = False] stays in the session until the
    commit that follows the loop. *)
Fixpoint cleanup_loop (expired_files : list FileRecord) (cleaned_count : Z)
    : M World Z :=
  match expired_files with
  | [] => ret cleaned_count
  | file_record :: rest =>
      _ <- try_except (create_delete_task (storage_path file_record))
             (fun _ => ret tt) ;;
      cleanup_loop rest (cleaned_count + 1)
  end.

(** [cleanup_expired_files(db)]; [now] is its read of the clock.  The rows
    of the query result are marked inactive in the session and written by
    the commit; when the query or the commit raises, the session is rolled
    back and 0 is returned. *)
Definition cleanup_expired_files (now : datetime) : M World Z :=
  try_except
    (expired_files <- query_all (expired now) ;;
     cleaned_count <- cleanup_loop expired_files 0 ;;
     _ <- update_commit (expired now) (set_is_active false) ;;
     ret cleaned_count)
    (fun _ => ret 0).

(** [increment_download_count(db, file_record)]: the row of the record is
    written with its count raised by one; a failing commit is rolled back
    and reported as [False]. *)
Definition increment_download_count (file_record : FileRecord) : M World bool :=
  try_except
    (_ <- update_commit (fun r => String.eqb (id r) (id file_record))
            inc_download_count ;;
     ret true)
    (fun _ => ret false).

(** [deactivate_file(db, file_record)] *)
Definition deactivate_file (file_record : FileRecord) : M World bool :=
  try_except
    (_ <- update_commit (fun r => String.eqb (id r) (id file_record))
            (set_is_active false) ;;
     ret true)
    (fun _ => ret false).

End Client.

(** *** Utility functions of the client *)

(** [c.lower()] for one ASCII character. *)
Definition lower_ascii (c : ascii) : ascii :=
  let n := N_of_ascii c in
  if ((65 <=? n) && (n <=? 90))%N then ascii_of_N (n + 32) else c.

(** [s.lower()] *)
Definition lower (s : string) : string := str (map lower_ascii (chars s)).

(** [s.split(sep)] for a one-character separator: the pieces between the
    occurrences of [sep], never an empty list. *)
Fixpoint split (sep : ascii) (l : list ascii) : list (list ascii) :=
  match l with
  | [] => [[]]
  | c :: l' =>
      if Ascii.eqb c sep then [] :: split sep l'
      else match split sep l' with
           | piece :: pieces => (c :: piece) :: pieces
           | [] => [[c]]
           end
  end.

(** [sep in s] *)
Definition contains (sep : ascii) (s : string) : bool :=
  existsb (Ascii.eqb sep) (chars s).

(** [s.startswith(prefix)] *)
Definition startswith (s prefix : string) : bool :=
  String.eqb (String.substring 0 (String.length prefix) s) prefix.

(** [get_file_extension(filename)] *)
Definition get_file_extension (filename : string) : string :=
  if contains "." filename
  then lower (str (List.last (split "." (chars filename)) []))
  else EmptyString.

(** The value of [s and b] for a string [s]: the string itself when it is
    empty, the boolean otherwise. *)
Inductive str_or_bool :=
| Str (s : string)
| Bool (b : bool).

(** The truth value of such a result, as an [if] reads it. *)
Definition truthy (v : str_or_bool) : bool :=
  match v with
  | Str s => negb (String.eqb s EmptyString)
  | Bool b => b
  end.

(** [is_image_file(mime_type)] *)
Definition is_image_file (mime_type : string) : str_or_bool :=
  if String.eqb mime_type EmptyString then Str mime_type
  else Bool (startswith mime_type "image/").

(** [is_text_file(mime_type)] *)
Definition is_text_file (mime_type : string) : str_or_bool :=
  let text_types := ["text/"; "application/json"; "application/xml"]%string in
  if String.eqb mime_type EmptyString then Str mime_type
  else Bool (existsb (fun t => startswith mime_type t) text_types).

End Supabase.

(** ** routes/file_routes.py

    The module imports [APIRouter], [UploadFile], [File], [HTTPException],
    [Depends], [StreamingResponse], [io] and two names of [typing], and
    binds nothing else before it uses [MAX_FILE_SIZE], [uuid],
    [upload_file_to_supabase], [get_db], [FileRecord],
    [download_file_from_supabase] and [app].  Its last statement,
    [app.include_router(router, prefix="/api")], raises [NameError] when
    the module is loaded, and each of its three functions raises
    [NameError] at the first of these names it reaches; what follows that
    point in their bodies never runs. *)

Module Routes.

Import Supabase.

Inductive Response :=
| UploadOk (code name : string) (fsize : Z)
| PreviewData (name : string) (fsize : Z) (mime : string)
    (uploaded : datetime) (downloads : Z) (preview_url : option string)
| StreamingResponse (body : bytes) (media_type : string)
    (content_disposition : string).


(** Loading the module: the statement [app.include_router(...)]. *)
Definition load : M World unit := raise (NameError "app").

(** [POST /upload]: the comparison [file.size > MAX_FILE_SIZE] stands
    before the [try]. *)
Definition upload_file (file : UploadFile) : M World Response :=
  raise (NameError "MAX_FILE_SIZE").

(** [GET /download/{download_code}]: [db = next(get_db())] is the first
    statement of the [try], whose handler turns every exception into an
    [HTTPException] with status 500. *)
Definition download_file (code : string) : M World Response :=
  try_except
    (raise (NameError "get_db"))
    (fun e => raise (HTTPException 500 (exn_str e))).

(** [GET /preview/{download_code}]: the same first statement and the same
    handler. *)
Definition preview_file (code : string) : M World Response :=
  try_except
    (raise (NameError "get_db"))
    (fun e => raise (HTTPException 500 (exn_str e))).

End Routes.

(** ** database/mongodb_client_sync.py *)

Module MongoSync.

Import Mongo.

(** Streamlit's [UploadedFile]. *)
Record UploadedFile := {
  name : string;
  type : string;
  getvalue : bytes
}.

Section Client.

Variable env : Env.

(** [upload_file_to_mongodb_sync(file, download_code)]; [gridfs_bucket.put]
    is the call that [upload_error] lets fail.  What is raised is a plain
    exception that carries its message. *)
Definition upload_file_to_mongodb_sync (now : datetime) (file : UploadedFile)
    (code : string) : M World ObjectId :=
  try_except
    (let file_content := getvalue file in
     file_id <- upload_from_stream env (name file) file_content
                  {| meta_content_type := type file;
                     meta_download_code := code;
                     meta_upload_date := now;
                     original_size := Z.of_nat (length file_content) |} ;;
     ret file_id)
    (fun e => raise (DriverError ("File upload failed: " ++ exn_str e))).

(** [download_file_from_mongodb_sync(gridfs_id)] *)
Definition download_file_from_mongodb_sync (gid : ObjectId)
    : M World (bytes * string) :=
  try_except
    (grid_out <- open_download_stream env gid ;;
     ret (grid_data grid_out, grid_filename grid_out))
    (fun e => raise (DriverError ("File download failed: " ++ exn_str e))).

(** [create_file_record_sync(db, download_code, file, gridfs_id)]; the
    size recorded is the length of the bytes, and the clock is as for
    [create_file_record]. *)
Definition create_file_record_sync (now_upload now_expiry : datetime)
    (code : string) (file : UploadedFile) (gid : ObjectId) : M World FileDoc :=
  try_except
    (oid <- new_ObjectId ;;
     let file_record :=
       {| _id := oid;
          download_code := upper code;
          original_filename := name file;
          file_size := Z.of_nat (length (getvalue file));
          mime_type := type file;
          gridfs_id := gid;
          upload_date := now_upload;
          download_count := 0;
          expiry_date := Some (now_expiry + timedelta_days 7);
          is_active := true |} in
     _ <- insert_one env file_record ;;
     ret file_record)
    (fun e => raise (DriverError ("Failed to create file record: " ++ exn_str e))).

(** [get_file_by_code_sync(db, download_code)] *)
Definition get_file_by_code_sync (code : string) : M World (option FileDoc) :=
  try_except
    (file_record <- find_one env (by_code (upper code)) ;;
     ret file_record)
    (fun _ => ret None).

(** [increment_download_count_sync(db, file_id)] *)
Definition increment_download_count_sync (fid : ObjectId) : M World bool :=
  try_except
    (modified_count <- update_one env fid inc_download_count ;;
     ret (modified_count >? 0))
    (fun _ => ret false).

End Client.

End MongoSync.

(** ** streamlit.py: what the upload and download buttons do *)

Module Streamlit.

Import Mongo MongoSync.

(** What the upload tab shows in the end. *)
Inductive UploadOutcome :=
| TooLarge
| Uploaded (code fname : string) (fsize : Z)
| UploadFailed (msg : string).

(** What the download tab shows in the end: nothing for an empty input,
    a warning for a code that is not 8 characters long, an error for an
    unknown code or a failure, or the download button with the bytes, the
    file name, the type and the number of downloads displayed. *)
Inductive DownloadOutcome :=
| NoInput
| BadLength
| NotFound
| Offered (data : bytes) (fname mime : string) (downloads : Z)
| DownloadFailed (msg : string).

Section Tabs.

Variable env : Env.

(** [upload_section()] once a file is chosen and the button pressed. *)
Definition upload_section (random_bytes : Z)
    (t_blob t_upload t_expiry : datetime) (uploaded_file : UploadedFile)
    : M World UploadOutcome :=
  let file_size := Z.of_nat (length (getvalue uploaded_file)) in
  if negb (validate_file_size file_size default_max_size) then ret TooLarge
  else
    try_except
      (let code := generate_download_code random_bytes 8 in
       file_id <- upload_file_to_mongodb_sync env t_blob uploaded_file code ;;
       file_record <- create_file_record_sync env t_upload t_expiry code
                        uploaded_file file_id ;;
       ret (Uploaded code (name uploaded_file) file_size))
      (fun e => ret (UploadFailed (exn_str e))).

(** [download_section()] for the text typed into the code field, once the
    button is pressed. *)
Definition download_section (input : string) : M World DownloadOutcome :=
  let code := upper input in
  if negb (String.eqb code EmptyString) && (len code =? 8)%nat then
    try_except
      (file_record <- get_file_by_code_sync env code ;;
       match file_record with
       | None => ret NotFound
       | Some r =>
           downloaded <- download_file_from_mongodb_sync env (gridfs_id r) ;;
           let '(file_content, fname) := downloaded in
           _ <- increment_download_count_sync env (_id r) ;;
           ret (Offered file_content fname (mime_type r) (download_count r + 1))
       end)
      (fun e => ret (DownloadFailed (exn_str e)))
  else if negb (String.eqb code EmptyString) then ret BadLength
  else ret NoInput.

End Tabs.

End Streamlit.

(** ** Definitions used by the statements *)

Import Mongo Main.

(** The codes of the active documents, in collection order. *)
Definition active_codes (w : World) : list string :=
  map download_code (List.filter is_active (files w)).

(** The document and the GridFS file that a successful upload stores. *)
Definition stored_doc (random_bytes : Z) (t_upload t_expiry : datetime)
    (file : UploadFile) (w : World) : FileDoc :=
  {| _id := N.succ (next_oid w);
     download_code := upper (generate_download_code random_bytes 8);
     original_filename := filename file;
     file_size := size file;
     mime_type := content_type file;
     gridfs_id := next_oid w;
     upload_date := bson_date t_upload;
     download_count := 0;
     expiry_date := Some (bson_date (t_expiry + timedelta_days 7));
     is_active := true |}.

Definition stored_blob (random_bytes : Z) (t_blob : datetime)
    (file : UploadFile) : GridFile :=
  {| grid_filename := filename file;
     grid_data := content file;
     grid_metadata :=
       {| meta_content_type := content_type file;
          meta_download_code := generate_download_code random_bytes 8;
          meta_upload_date := bson_date t_blob;
          original_size := Z.of_nat (length (content file)) |} |}.

(** The deletion of the GridFS file of [id] cannot succeed in [w]: the
    driver call fails, or the file is not there. *)
Definition delete_blocked (env : Env) (w : World) (id : ObjectId) : Prop :=
  delete_error env id <> None \/ gridfs w !! id = None.

(** Every active document of [l'] was already in [l]. *)
Definition active_from (l l' : list FileDoc) : Prop :=
  forall r, In r l' -> is_active r = true -> In r l.

(** The document with the given [_id] gets one download more. *)
Definition bump (id : ObjectId) (d : FileDoc) : FileDoc :=
  if (_id d =? id)%N then inc_download_count d else d.

(** The database after [n] downloads in a row with the same code. *)
Fixpoint downloads (env : Env) (code : string) (n : nat) (w : World) : World :=
  match n with
  | O => w
  | S n' => downloads env code n' (snd (download_file env code w))
  end.

(** A document and a later state of it: the fields written at creation
    are the same, the count of downloads did not go down, and an inactive
    document stayed inactive. *)
Definition doc_le (d d' : FileDoc) : Prop :=
  _id d' = _id d /\ download_code d' = download_code d /\
  original_filename d' = original_filename d /\ file_size d' = file_size d /\
  mime_type d' = mime_type d /\ gridfs_id d' = gridfs_id d /\
  upload_date d' = upload_date d /\ expiry_date d' = expiry_date d /\
  download_count d <= download_count d' /\
  (is_active d = false -> is_active d' = false).

(** A collection and a later state of it: every document is still there,
    at its place and in a later state, and new ones come after them. *)
Definition history (l l' : list FileDoc) : Prop :=
  exists l1 l2, l' = l1 ++ l2 /\ Forall2 doc_le l l1.

(** The documents that a sweep at [now] marks inactive. *)
Definition mark_expired (now : datetime) (d : FileDoc) : FileDoc :=
  if Mongo.expired now d then Mongo.set_is_active false d else d.

(** The bucket after the GridFS files of the documents of [l] were
    deleted, one after the other. *)
Definition delete_all (l : list FileDoc) (g : gmap ObjectId GridFile)
    : gmap ObjectId GridFile :=
  fold_left (fun g d => delete (gridfs_id d) g) l g.

(** The row that [create_file_record] of the Supabase client adds, given
    the expiry date it computed. *)
Definition new_row (uuid_bytes : Z) (now_upload : datetime) (code : string)
    (file : UploadFile) (file_path : string) (expiry : option datetime)
    : Supabase.FileRecord :=
  {| Supabase.id := Uuid.to_str (Uuid.uuid4 uuid_bytes);
     Supabase.download_code := code;
     Supabase.original_filename := filename file;
     Supabase.file_size := size file;
     Supabase.mime_type := content_type file;
     Supabase.storage_path := file_path;
     Supabase.upload_date := now_upload;
     Supabase.download_count := 0;
     Supabase.expiry_date := expiry;
     Supabase.is_active := true |}.

(** The table with one more row. *)
Definition with_row (r : Supabase.FileRecord) (w : Supabase.World)
    : Supabase.World :=
  {| Supabase.rows := Supabase.rows w ++ [r];
     Supabase.storage := Supabase.storage w;
     Supabase.tasks := Supabase.tasks w |}.

(** Some row of the table has the primary key or the code of [r]. *)
Definition clashes (r : Supabase.FileRecord) (w : Supabase.World) : bool :=
  existsb (fun r' => String.eqb (Supabase.id r') (Supabase.id r) ||
                     String.eqb (Supabase.download_code r')
                       (Supabase.download_code r))
    (Supabase.rows w).

(** Some document of [l] has the [_id] of [d]. *)
Definition among (l : list FileDoc) (d : FileDoc) : bool :=
  existsb (fun x => (_id x =? _id d)%N) l.

(** The document and the GridFS file that a successful upload through
    the dashboard stores. *)
Definition ui_doc (random_bytes : Z) (t_upload t_expiry : datetime)
    (file : MongoSync.UploadedFile) (w : World) : FileDoc :=
  {| _id := N.succ (next_oid w);
     download_code := upper (generate_download_code random_bytes 8);
     original_filename := MongoSync.name file;
     file_size := Z.of_nat (length (MongoSync.getvalue file));
     mime_type := MongoSync.type file;
     gridfs_id := next_oid w;
     upload_date := bson_date t_upload;
     download_count := 0;
     expiry_date := Some (bson_date (t_expiry + timedelta_days 7));
     is_active := true |}.

Definition ui_blob (random_bytes : Z) (t_blob : datetime)
    (file : MongoSync.UploadedFile) : GridFile :=
  {| grid_filename := MongoSync.name file;
     grid_data := MongoSync.getvalue file;
     grid_metadata :=
       {| meta_content_type := MongoSync.type file;
          meta_download_code := generate_download_code random_bytes 8;
          meta_upload_date := bson_date t_blob;
          original_size := Z.of_nat (length (MongoSync.getvalue file)) |} |}.

(** *** Worlds and files used as examples *)

Definition hello : UploadFile :=
  {| filename := "a.txt"; content_type := "text/plain"; size := 10;
     content := [Byte.x48; Byte.x45; Byte.x4c; Byte.x4c; Byte.x4f;
                 Byte.x57; Byte.x52; Byte.x4c; Byte.x44; Byte.x0a] |}.

Definition other : UploadFile :=
  {| filename := "b.bin"; content_type := "application/octet-stream"; size := 2;
     content := [Byte.x01; Byte.x02] |}.

(** Only [insert_one] fails. *)
Definition insert_down : Env :=
  {| upload_error := None; open_error := fun _ => None;
     delete_error := fun _ => None; insert_error := Some "connection lost";
     find_error := None; update_error := fun _ => None |}.

(** Only the queries fail. *)
Definition find_down : Env :=
  {| upload_error := None; open_error := fun _ => None;
     delete_error := fun _ => None; insert_error := None;
     find_error := Some "connection lost"; update_error := fun _ => None |}.

(** The database after [hello] was uploaded into the empty one; the draw 5
    gives the code [00000000]. *)
Definition w_hello : World :=
  snd (upload_file no_faults 5 100 101 102 hello Mongo.empty).

(** A file whose name has a character outside Latin-1: the bytes [C5 82]
    are the letter U+0142. *)
Definition zloty : UploadFile :=
  {| filename := String (ascii_of_N 197) (String (ascii_of_N 130) ".txt");
     content_type := "text/plain"; size := 2;
     content := [Byte.x01; Byte.x02] |}.

Definition too_big : UploadFile :=
  {| filename := "big.iso"; content_type := "application/octet-stream";
     size := 200 * 1024 * 1024; content := [] |}.

(** Only [update_one] fails. *)
Definition update_down : Env :=
  {| upload_error := None; open_error := fun _ => None;
     delete_error := fun _ => None; insert_error := None;
     find_error := None;
     update_error := fun _ => Some "connection lost"%string |}.

(** [w_hello] with its GridFS file gone. *)
Definition w_no_blob : World :=
  {| files := files w_hello; gridfs := ∅; next_oid := next_oid w_hello |}.

(** [hello] as the dashboard receives it. *)
Definition hello_ui : MongoSync.UploadedFile :=
  {| MongoSync.name := "a.txt"; MongoSync.type := "text/plain";
     MongoSync.getvalue := content hello |}.

(** Only [gridfs_bucket.delete] fails. *)
Definition delete_down : Mongo.Env :=
  {| upload_error := None; open_error := fun _ => None;
     delete_error := fun _ => Some "connection lost"%string;
     insert_error := None; find_error := None; update_error := fun _ => None |}.

(** A table with one expired active row, and an environment without a
    running event loop: the deletion of the storage object cannot even be
    scheduled. *)
Definition old_row : Supabase.FileRecord :=
  {| Supabase.id := "r1"; Supabase.download_code := "ABCD1234";
     Supabase.original_filename := "a.txt"; Supabase.file_size := 10;
     Supabase.mime_type := "text/plain";
     Supabase.storage_path := "ABCD1234/a.txt";
     Supabase.upload_date := 100; Supabase.download_count := 0;
     Supabase.expiry_date := Some 200; Supabase.is_active := true |}.

Definition sw_old : Supabase.World :=
  {| Supabase.rows := [old_row];
     Supabase.storage := {[ "ABCD1234/a.txt"%string := content hello ]};
     Supabase.tasks := [] |}.

Definition no_loop : Supabase.Env :=
  {| Supabase.query_error := None; Supabase.commit_error := None;
     Supabase.storage_upload_error := None;
     Supabase.storage_download_error := fun _ => None;
     Supabase.loop_running := false |}.

(** Only the commit fails; an event loop is running. *)
Definition commit_down : Supabase.Env :=
  {| Supabase.query_error := None;
     Supabase.commit_error := Some "connection lost"%string;
     Supabase.storage_upload_error := None;
     Supabase.storage_download_error := fun _ => None;
     Supabase.loop_running := true |}.

(** ** Properties of the generated code *)

(** *** Facts about strings *)

Section StringFacts.

Lemma chars_str (l : list ascii) : chars (str l) = l.
Proof. apply list_ascii_of_string_of_list_ascii. Qed.

Lemma str_chars (s : string) : str (chars s) = s.
Proof. apply string_of_list_ascii_of_string. Qed.

Lemma length_chars (s : string) : length (chars s) = String.length s.
Proof. induction s as [|c s IH]; simpl; [reflexivity | now rewrite IH]. Qed.

Lemma length_str (l : list ascii) : String.length (str l) = length l.
Proof. rewrite <- length_chars, chars_str. reflexivity. Qed.

Lemma upper_ascii_idem (c : ascii) : upper_ascii (upper_ascii c) = upper_ascii c.
Proof.
  destruct c as [[] [] [] [] [] [] [] []]; reflexivity.
Qed.

Lemma upper_idem (s : string) : upper (upper s) = upper s.
Proof.
  unfold upper. rewrite chars_str, map_map. f_equal.
  apply map_ext. intros c. apply upper_ascii_idem.
Qed.

Lemma chars_append (s1 s2 : string) :
  chars (s1 ++ s2) = chars s1 ++ chars s2.
Proof.
  unfold chars. induction s1 as [|c s1 IH]; simpl; [reflexivity | now rewrite IH].
Qed.

(** A text made of two texts can be written in Latin-1 when both can. *)
Lemma latin1_app (s1 s2 : string) :
  latin1 (s1 ++ s2) = latin1 s1 && latin1 s2.
Proof. unfold latin1. rewrite chars_append. apply forallb_app. Qed.

(** The value of the [Content-Disposition] header can be written in
    Latin-1 exactly when the file name can. *)
Lemma latin1_disposition (name : string) :
  latin1 ("attachment; filename=" ++ dquote ++ name ++ dquote) = latin1 name.
Proof.
  rewrite !latin1_app.
  change (latin1 "attachment; filename=") with true.
  change (latin1 dquote) with true.
  now rewrite andb_true_r.
Qed.

(** On ASCII text the characters are the bytes. *)
Lemma len_ascii (s : string) : is_ascii s = true -> len s = String.length s.
Proof.
  unfold is_ascii, len. rewrite <- length_chars.
  induction (chars s) as [|c l IH]; [reflexivity |].
  cbn [forallb List.filter]. intros H. apply andb_true_iff in H as [Hc Hl].
  apply N.ltb_lt in Hc.
  destruct (N.leb_spec 128 (N_of_ascii c)) as [Hge | _]; [lia |].
  cbn [andb negb length]. now rewrite IH.
Qed.

Lemma hex_is_ascii (s : string) : all_in hex_upper s = true -> is_ascii s = true.
Proof.
  unfold all_in, is_ascii.
  induction (chars s) as [|c l IH]; [reflexivity |].
  cbn [forallb]. intros H. apply andb_true_iff in H as [Hc Hl].
  rewrite IH by assumption. rewrite andb_true_r.
  clear -Hc. destruct c as [[] [] [] [] [] [] [] []]; try discriminate Hc; reflexivity.
Qed.

Lemma is_ascii_upper (s : string) : is_ascii s = true -> is_ascii (upper s) = true.
Proof.
  unfold is_ascii, upper. rewrite chars_str.
  induction (chars s) as [|c l IH]; [reflexivity |].
  cbn [forallb map]. intros H. apply andb_true_iff in H as [Hc Hl].
  rewrite IH by assumption. rewrite andb_true_r.
  clear -Hc. destruct c as [[] [] [] [] [] [] [] []]; try discriminate Hc; reflexivity.
Qed.

Lemma length_upper (s : string) : String.length (upper s) = String.length s.
Proof. unfold upper. rewrite length_str, length_map. apply length_chars. Qed.

End StringFacts.

(** *** Facts about the generated code *)

Section CodeFacts.

Lemma hex_digit_lower (x : Z) :
  in_alphabet hex_lower (Uuid.hex_digit (Z.land x 15)) = true.
Proof.
  change 15 with (Z.ones 4). rewrite Z.land_ones by lia.
  assert (H : 0 <= x mod 2 ^ 4 < 16) by (apply Z.mod_pos_bound; lia).
  set (m := x mod 2 ^ 4) in *. clearbody m.
  assert (Hm : m = 0 \/ m = 1 \/ m = 2 \/ m = 3 \/ m = 4 \/ m = 5 \/ m = 6 \/
               m = 7 \/ m = 8 \/ m = 9 \/ m = 10 \/ m = 11 \/ m = 12 \/
               m = 13 \/ m = 14 \/ m = 15) by lia.
  repeat (destruct Hm as [-> | Hm]; [reflexivity |]). subst m. reflexivity.
Qed.

Lemma hex32_lower (u : Z) :
  Forall (fun c => in_alphabet hex_lower c = true) (Uuid.hex32 u).
Proof.
  unfold Uuid.hex32. apply Forall_map, Forall_forall.
  intros i _. apply hex_digit_lower.
Qed.

Lemma length_hex32 (u : Z) : length (Uuid.hex32 u) = 32%nat.
Proof. unfold Uuid.hex32. rewrite length_map, length_rev, length_seq. reflexivity. Qed.

Lemma lower_not_hyphen (c : ascii) :
  in_alphabet hex_lower c = true -> c <> "-"%char.
Proof. intros H ->. discriminate H. Qed.

Lemma lower_to_upper (c : ascii) :
  in_alphabet hex_lower c = true -> in_alphabet hex_upper (upper_ascii c) = true.
Proof.
  destruct c as [[] [] [] [] [] [] [] []]; intros H; try discriminate H; reflexivity.
Qed.

Lemma filter_keep_all (l : list ascii) :
  Forall (fun c => in_alphabet hex_lower c = true) l ->
  filter (fun x => x <> "-"%char) l = l.
Proof.
  induction 1 as [|c l Hc _ IH]; [reflexivity |].
  rewrite filter_cons_True by (now apply lower_not_hyphen). now rewrite IH.
Qed.

Lemma slice_then_rest (l : list ascii) (i j : nat) :
  (i <= j)%nat -> slice l i j ++ drop j l = drop i l.
Proof.
  intros Hij. unfold slice.
  replace (drop j l) with (drop (j - i) (drop i l)).
  - apply take_drop.
  - rewrite drop_drop. f_equal. lia.
Qed.

(** Removing the hyphens of [str(u)] gives back the 32 digits. *)
Lemma remove_hyphens (u : Z) :
  chars (remove_char "-" (Uuid.to_str u)) = Uuid.hex32 u.
Proof.
  unfold remove_char, Uuid.to_str. rewrite !chars_str.
  pose proof (hex32_lower u) as Hh. set (h := Uuid.hex32 u) in *.
  assert (Hs : forall i j, filter (fun x => x <> "-"%char) (slice h i j) = slice h i j).
  { intros i j. apply filter_keep_all. unfold slice.
    now apply Forall_take, Forall_drop. }
  assert (Hd : filter (fun x => x <> "-"%char) (drop 20 h) = drop 20 h).
  { apply filter_keep_all. now apply Forall_drop. }
  repeat (rewrite filter_app, Hs; rewrite filter_cons_False by (intros Hne; now apply Hne)).
  rewrite Hd.
  rewrite (slice_then_rest h 16 20), (slice_then_rest h 12 16),
    (slice_then_rest h 8 12), (slice_then_rest h 0 8) by lia.
  reflexivity.
Qed.

Lemma generate_download_code_chars (random_bytes length : Z) :
  0 <= length ->
  chars (generate_download_code random_bytes length) =
  take (Z.to_nat (Z.min length 32))
       (map upper_ascii (Uuid.hex32 (Uuid.uuid4 random_bytes))).
Proof.
  intros Hlen. unfold generate_download_code, slice_upto.
  rewrite chars_str, length_upper, <- length_chars, remove_hyphens, length_hex32.
  unfold upper. rewrite chars_str, remove_hyphens.
  destruct (Z.ltb_spec length 0) as [Hneg | _]; [lia |].
  reflexivity.
Qed.

End CodeFacts.

(** C9.  For a length from 0 to 32, [generate_download_code(length)] is a
    string of exactly that many characters, and a longer length gives 32
    characters; every character is one of the sixteen digits
    [0-9A-F], which all belong to the 36-character uppercase alphanumeric
    alphabet, some of whose characters (such as [G]) are not among them. *)
Theorem generate_download_code_hex (random_bytes length : Z) :
  0 <= length ->
  let code := generate_download_code random_bytes length in
  String.length code = Z.to_nat (Z.min length 32) /\
  all_in hex_upper code = true /\
  (forall c, in_alphabet hex_upper c = true -> in_alphabet alnum_upper c = true) /\
  String.length hex_upper = 16%nat /\
  String.length alnum_upper = 36%nat /\
  in_alphabet alnum_upper "G" = true /\ in_alphabet hex_upper "G" = false.
Proof.
  intros Hlen code. subst code.
  pose proof (generate_download_code_chars random_bytes length Hlen) as Hc.
  split; [| split; [| split; [| repeat split]]].
  - rewrite <- length_chars, Hc, length_take, length_map, length_hex32. lia.
  - unfold all_in. rewrite Hc. apply forallb_forall. intros c Hin.
    assert (Hf : Forall (fun c => in_alphabet hex_upper c = true)
                   (take (Z.to_nat (Z.min length 32))
                      (map upper_ascii (Uuid.hex32 (Uuid.uuid4 random_bytes))))).
    { apply Forall_take, Forall_map.
      eapply Forall_impl; [apply hex32_lower |]. apply lower_to_upper. }
    rewrite Forall_forall in Hf. apply Hf. now apply list_elem_of_In.
  - intros c. destruct c as [[] [] [] [] [] [] [] []]; intros H;
      try discriminate H; reflexivity.
Qed.

Lemma generate_download_code_hex_witness :
  0 <= 8 /\
  String.length (generate_download_code 0 8) = Z.to_nat (Z.min 8 32) /\
  all_in hex_upper (generate_download_code 0 8) = true.
Proof.
  split; [lia |].
  pose proof (generate_download_code_hex 0 8 ltac:(lia)) as H.
  simpl in H. destruct H as (H1 & H2 & _). split; assumption.
Defined.

(** ** Properties of the MongoDB client and of the endpoints *)

Arguments generate_download_code : simpl never.
Arguments upper : simpl never.

Section LookupFacts.

Lemma all_in_upper_fixed (s : string) :
  all_in hex_upper s = true -> upper s = s.
Proof.
  unfold all_in, upper. intros H. rewrite <- (str_chars s) at 2. f_equal.
  induction (chars s) as [|c l IH]; [reflexivity |].
  simpl in H. apply andb_true_iff in H as [Hc Hl]. simpl. rewrite IH by assumption.
  f_equal. clear -Hc.
  destruct c as [[] [] [] [] [] [] [] []]; try discriminate Hc; reflexivity.
Qed.

Lemma upper_generated (random_bytes : Z) :
  upper (generate_download_code random_bytes 8) = generate_download_code random_bytes 8.
Proof.
  apply all_in_upper_fixed.
  unfold all_in. rewrite generate_download_code_chars by lia.
  apply forallb_forall. intros c Hin.
  assert (Hf : Forall (fun c => in_alphabet hex_upper c = true)
                 (take (Z.to_nat (Z.min 8 32))
                    (map upper_ascii (Uuid.hex32 (Uuid.uuid4 random_bytes))))).
  { apply Forall_take, Forall_map.
    eapply Forall_impl; [apply hex32_lower |]. apply lower_to_upper. }
  rewrite Forall_forall in Hf. apply Hf. now apply list_elem_of_In.
Qed.

Lemma find_app_skip (q : FileDoc -> bool) (l l' : list FileDoc) :
  List.find q l = None -> List.find q (l ++ l') = List.find q l'.
Proof.
  induction l as [|d l IH]; simpl; [reflexivity |].
  destruct (q d); [discriminate | exact IH].
Qed.

Lemma find_by_code_absent (code : string) (w : World) :
  ~ In code (active_codes w) -> List.find (by_code code) (files w) = None.
Proof.
  unfold active_codes. induction (files w) as [|d l IH]; simpl; [reflexivity |].
  intros Hni. unfold by_code at 1.
  destruct (is_active d) eqn:Ha; simpl in Hni.
  - destruct (String.eqb_spec (download_code d) code) as [Heq | Hne]; simpl.
    + exfalso. apply Hni. now left.
    + apply IH. intros Hin. apply Hni. now right.
  - rewrite andb_false_r. apply IH. exact Hni.
Qed.


(** What [get_file_by_code] returns when the query itself does not fail. *)
Lemma get_file_by_code_find (env : Env) (code : string) (w : World) :
  find_error env = None ->
  get_file_by_code env code w =
  (Ok (List.find (by_code (upper code)) (files w)), w).
Proof. intros He. unfold get_file_by_code, find_one. rewrite He. reflexivity. Qed.

Lemma get_file_by_code_outage (env : Env) (code msg : string) (w : World) :
  find_error env = Some msg -> get_file_by_code env code w = (Ok None, w).
Proof. intros He. unfold get_file_by_code, find_one. rewrite He. reflexivity. Qed.

End LookupFacts.

Section UploadFacts.

Variable env : Env.
Variables (random_bytes : Z) (t_blob t_upload t_expiry : datetime).
Variable file : UploadFile.
Variable w : World.

Hypothesis size_ok : validate_file_size (size file) default_max_size = true.
Hypothesis blob_ok : upload_error env = None.

Lemma upload_file_ok :
  insert_error env = None ->
  upload_file env random_bytes t_blob t_upload t_expiry file w =
  (Ok (UploadOk (generate_download_code random_bytes 8) (filename file) (size file)),
   {| files := files w ++ [stored_doc random_bytes t_upload t_expiry file w];
      gridfs := <[next_oid w := stored_blob random_bytes t_blob file]> (gridfs w);
      next_oid := N.succ (N.succ (next_oid w)) |}).
Proof.
  intros Hins.
  unfold upload_file, upload_file_to_mongodb, create_file_record,
    upload_from_stream, insert_one, new_ObjectId.
  rewrite size_ok, blob_ok, Hins. reflexivity.
Qed.

Lemma upload_file_insert_fails (msg : string) :
  insert_error env = Some msg ->
  upload_file env random_bytes t_blob t_upload t_expiry file w =
  (Ok (JSONResponse 500
         {| success := false;
            detail := exn_str (HTTPException 500
                        ("Failed to create file record: " ++ msg));
            message := "Upload failed" |}),
   {| files := files w;
      gridfs := <[next_oid w := stored_blob random_bytes t_blob file]> (gridfs w);
      next_oid := N.succ (N.succ (next_oid w)) |}).
Proof.
  intros Hins.
  unfold upload_file, upload_file_to_mongodb, create_file_record,
    upload_from_stream, insert_one, new_ObjectId.
  rewrite size_ok, blob_ok, Hins. reflexivity.
Qed.

End UploadFacts.

(** X4.  An upload above the size cap is answered with 413 before any
    store is touched: the database is left as it was. *)
Lemma upload_too_large
    (env : Env) (random_bytes : Z) (t_blob t_upload t_expiry : datetime)
    (file : UploadFile) (w : World) :
  default_max_size < size file ->
  upload_file env random_bytes t_blob t_upload t_expiry file w =
  (Ok (JSONResponse 413
         {| success := false; detail := "File size exceeds 100MB limit";
            message := "File too large" |}), w).
Proof.
  intros Hbig. unfold upload_file, validate_file_size, try_except.
  destruct (Z.leb_spec (size file) default_max_size); [lia | reflexivity].
Qed.

(** C10.  When the query of the metadata store raises, [get_file_by_code]
    returns [None]; download then answers 404 [Invalid download code] and
    preview answers 404 as well, exactly what a working store answers for
    a code that no active document carries. *)
Theorem lookup_outage_reported_as_not_found
    (env : Env) (code msg : string) (w : World) :
  find_error env = Some msg ->
  get_file_by_code env code w = (Ok None, w) /\
  respond (download_file env code) w =
    (JSONResponse 404 {| success := false; detail := "Invalid download code";
                         message := "Request failed" |}, w) /\
  respond (preview_file env code) w =
    (JSONResponse 404 {| success := false; detail := "Invalid download code";
                         message := "File not found" |}, w) /\
  (forall env', find_error env' = None ->
     List.find (by_code (upper code)) (files w) = None ->
     respond (download_file env' code) w = respond (download_file env code) w /\
     respond (preview_file env' code) w = respond (preview_file env code) w).
Proof.
  intros He. split; [now apply get_file_by_code_outage with msg |].
  assert (Hd : respond (download_file env code) w =
    (JSONResponse 404 {| success := false; detail := "Invalid download code";
                         message := "Request failed" |}, w)).
  { unfold respond, download_file, try_except, bind.
    rewrite (get_file_by_code_outage env (upper code) msg w He). reflexivity. }
  assert (Hp : respond (preview_file env code) w =
    (JSONResponse 404 {| success := false; detail := "Invalid download code";
                         message := "File not found" |}, w)).
  { unfold respond, preview_file, try_except, bind.
    rewrite (get_file_by_code_outage env (upper code) msg w He). reflexivity. }
  split; [exact Hd | split; [exact Hp |]].
  intros env' He' Habs. rewrite Hd, Hp.
  unfold respond, download_file, preview_file, try_except, bind.
  rewrite (get_file_by_code_find env' (upper code) w He'), upper_idem, Habs.
  split; reflexivity.
Qed.

Lemma lookup_outage_reported_as_not_found_witness :
  find_error find_down = Some "connection lost"%string /\
  respond (download_file find_down "00000000") w_hello =
    (JSONResponse 404 {| success := false; detail := "Invalid download code";
                         message := "Request failed" |}, w_hello).
Proof.
  split; [reflexivity |].
  destruct (lookup_outage_reported_as_not_found find_down "00000000"
              "connection lost" w_hello eq_refl) as (_ & Hd & _).
  exact Hd.
Defined.

(** C5 as stated fails: with a store whose [insert_one] raises and whose
    deletions would succeed, the upload answers 500 and the GridFS file it
    wrote is still in the bucket afterwards. *)
Lemma upload_insert_failure_keeps_blob :
  let run := upload_file insert_down 5 100 101 102 hello Mongo.empty in
  fst run = Ok (JSONResponse 500
                  {| success := false;
                     detail := "500: Failed to create file record: connection lost";
                     message := "Upload failed" |}) /\
  files (snd run) = [] /\
  grid_data <$> (gridfs (snd run) !! 0%N) = Some (content hello).
Proof. vm_compute. repeat split; reflexivity. Qed.

(** C5, amended.  When the insert of the record fails after the GridFS
    write succeeded, the upload makes no attempt to delete the file it
    wrote: the file stays in the bucket, no record is added, and the
    caller receives a 500 [Upload failed] response whose detail is the
    text of the record-creation failure. *)
Theorem upload_insert_failure_no_cleanup
    (env : Env) (random_bytes : Z) (t_blob t_upload t_expiry : datetime)
    (file : UploadFile) (w : World) (msg : string) :
  validate_file_size (size file) default_max_size = true ->
  upload_error env = None ->
  insert_error env = Some msg ->
  let run := upload_file env random_bytes t_blob t_upload t_expiry file w in
  fst run = Ok (JSONResponse 500
                  {| success := false;
                     detail := exn_str (HTTPException 500
                                 ("Failed to create file record: " ++ msg));
                     message := "Upload failed" |}) /\
  files (snd run) = files w /\
  gridfs (snd run) !! next_oid w = Some (stored_blob random_bytes t_blob file) /\
  (forall id, id <> next_oid w -> gridfs (snd run) !! id = gridfs w !! id).
Proof.
  intros Hsize Hblob Hins run. subst run.
  rewrite (upload_file_insert_fails env random_bytes t_blob t_upload t_expiry
             file w Hsize Hblob msg Hins). simpl.
  repeat split.
  - apply lookup_insert_eq.
  - intros id Hne. apply lookup_insert_ne. congruence.
Qed.

Lemma upload_insert_failure_no_cleanup_witness :
  validate_file_size (size hello) default_max_size = true /\
  upload_error insert_down = None /\
  insert_error insert_down = Some "connection lost"%string /\
  files (snd (upload_file insert_down 5 100 101 102 hello Mongo.empty)) = [] /\
  gridfs (snd (upload_file insert_down 5 100 101 102 hello Mongo.empty)) !! 0%N =
    Some (stored_blob 5 100 hello).
Proof.
  split; [reflexivity | split; [reflexivity | split; [reflexivity |]]].
  destruct (upload_insert_failure_no_cleanup insert_down 5 100 101 102 hello
              Mongo.empty "connection lost" eq_refl eq_refl eq_refl)
    as (_ & Hf & Hg & _).
  split; [exact Hf | exact Hg].
Defined.

(** ** What a lookup, a preview and a download answer *)

Section FetchFacts.

Variable env : Env.

Lemma increment_download_count_returns (id : ObjectId) (w : World) :
  exists b, fst (increment_download_count env id w) = Ok b.
Proof.
  unfold increment_download_count, update_one, try_except, bind.
  destruct (update_error env id); simpl; [eexists; reflexivity |].
  destruct (update_first id inc_download_count (files w)).
  eexists; reflexivity.
Qed.

(** The run of a download whose lookup finds [r] and whose GridFS read
    gives [blob]: the count is incremented first, then the response is
    built, which fails when the file name or the type cannot be written in
    Latin-1. *)
Lemma download_file_found (code : string) (w : World) (r : FileDoc)
    (blob : GridFile) :
  find_error env = None ->
  List.find (by_code (upper code)) (files w) = Some r ->
  open_error env (gridfs_id r) = None ->
  gridfs w !! gridfs_id r = Some blob ->
  download_file env code w =
  (if latin1 (grid_filename blob) && latin1 (mime_type r)
   then Ok (StreamingResponse (grid_data blob) (mime_type r)
              ("attachment; filename=" ++ dquote ++ grid_filename blob ++ dquote))
   else Raise (HTTPException 500
                 ("Download failed: " ++ exn_str UnicodeEncodeError)),
   snd (increment_download_count env (_id r) w)).
Proof.
  intros Hfind Hr Hopen Hblob.
  unfold download_file, try_except, bind.
  rewrite get_file_by_code_find by assumption. rewrite upper_idem, Hr.
  unfold download_file_from_mongodb, open_download_stream, try_except, bind.
  rewrite Hopen, Hblob. unfold ret at 1.
  destruct (increment_download_count_returns (_id r) w) as [b Hb].
  destruct (increment_download_count env (_id r) w) as [res w'].
  simpl in Hb. subst res. cbn [snd].
  unfold new_StreamingResponse. rewrite latin1_disposition.
  destruct (latin1 (grid_filename blob) && latin1 (mime_type r)); reflexivity.
Qed.


Lemma fetch_not_found (code : string) (w : World) :
  find_error env = None ->
  List.find (by_code (upper code)) (files w) = None ->
  download_file env code w =
    (Raise (HTTPException 404 "Invalid download code"), w) /\
  preview_file env code w =
    (Ok (JSONResponse 404 {| success := false; detail := "Invalid download code";
                             message := "File not found" |}), w).
Proof.
  intros Hfind Hr. unfold download_file, preview_file, try_except, bind.
  rewrite get_file_by_code_find by assumption. rewrite upper_idem, Hr.
  split; reflexivity.
Qed.

End FetchFacts.




Section UploadOutcome.

Variable env : Env.
Variables (random_bytes : Z) (t_blob t_upload t_expiry : datetime).
Variable file : UploadFile.
Variable w : World.

(** An upload either leaves the collection as it was and answers with an
    error response, or appends one document and answers with the one code
    it generated. *)
Lemma upload_file_outcome :
  let run := upload_file env random_bytes t_blob t_upload t_expiry file w in
  (files (snd run) = files w /\
   exists status body, fst run = Ok (JSONResponse status body)) \/
  (files (snd run) =
     files w ++ [stored_doc random_bytes t_upload t_expiry file w] /\
   fst run = Ok (UploadOk (generate_download_code random_bytes 8)
                   (filename file) (size file))).
Proof.
  destruct (validate_file_size (size file) default_max_size) eqn:Hsize.
  - destruct (upload_error env) as [m|] eqn:Hblob.
    + left. unfold upload_file, upload_file_to_mongodb, upload_from_stream.
      rewrite Hsize, Hblob. simpl. split; [reflexivity | eauto].
    + destruct (insert_error env) as [m|] eqn:Hins.
      * left. simpl.
        rewrite (upload_file_insert_fails env random_bytes t_blob t_upload
                   t_expiry file w Hsize Hblob m Hins).
        simpl. split; [reflexivity | eauto].
      * right. simpl.
        rewrite (upload_file_ok env random_bytes t_blob t_upload t_expiry
                   file w Hsize Hblob Hins).
        simpl. split; reflexivity.
  - left. unfold upload_file. rewrite Hsize. simpl. split; [reflexivity | eauto].
Qed.

End UploadOutcome.

(** C2 at the failing input.  Two uploads in a row whose draws differ
    but agree on their first eight digits both succeed with the code
    [00000000], and the collection then holds two active documents with
    that code: nothing reserves the code or looks for it before the insert.
    The table of the Supabase client, whose [download_code] column has a
    unique index, refuses the second record with the same code. *)
Theorem two_uploads_share_a_code :
  let run1 := upload_file no_faults 5 100 101 102 hello Mongo.empty in
  let run2 := upload_file no_faults 6 200 201 202 other (snd run1) in
  let row1 := Supabase.create_file_record Supabase.no_faults 7 101 102
                "00000000" hello "00000000/a.txt" 7 Supabase.empty in
  let row2 := Supabase.create_file_record Supabase.no_faults 8 201 202
                "00000000" other "00000000/b.bin" 7 (snd row1) in
  Uuid.to_str (Uuid.uuid4 5) = "00000000-0000-4000-8000-000000000005"%string /\
  Uuid.to_str (Uuid.uuid4 6) = "00000000-0000-4000-8000-000000000006"%string /\
  fst run1 = Ok (UploadOk "00000000" "a.txt" 10) /\
  fst run2 = Ok (UploadOk "00000000" "b.bin" 2) /\
  active_codes (snd run2) = ["00000000"; "00000000"]%string /\
  (exists why,
     fst row2 = Raise (HTTPException 500
                         ("Failed to create file record: " ++ why))) /\
  map Supabase.download_code (Supabase.rows (snd row2)) = ["00000000"%string].
Proof.
  cbv zeta.
  split; [vm_compute; reflexivity |]. split; [vm_compute; reflexivity |].
  split; [vm_compute; reflexivity |]. split; [vm_compute; reflexivity |].
  split; [vm_compute; reflexivity |].
  split; [exists (exn_str Supabase.IntegrityError); vm_compute; reflexivity |].
  vm_compute; reflexivity.
Qed.

(** C3 at the failing inputs.  When the draw of an upload gives the code
    that an earlier active document already carries, the upload succeeds
    and returns that code, and the download with it yields the bytes, the
    name and the type of the earlier file.  When the name of the file has a
    character outside Latin-1, the upload succeeds and the download with
    the returned code is answered with 500 [Download failed], after the
    download was counted. *)
Theorem store_then_fetch_failures :
  let run := upload_file no_faults 6 200 201 202 other w_hello in
  let up := upload_file no_faults 5 100 101 102 zloty Mongo.empty in
  let down := respond (download_file no_faults "00000000") (snd up) in
  fst run = Ok (UploadOk "00000000" "b.bin" 2) /\
  content other = [Byte.x01; Byte.x02] /\
  fst (respond (download_file no_faults "00000000") (snd run)) =
    StreamingResponse
      [Byte.x48; Byte.x45; Byte.x4c; Byte.x4c; Byte.x4f;
       Byte.x57; Byte.x52; Byte.x4c; Byte.x44; Byte.x0a]
      "text/plain" ("attachment; filename=" ++ dquote ++ "a.txt" ++ dquote) /\
  fst up = Ok (UploadOk "00000000" (filename zloty) 2) /\
  latin1 (filename zloty) = false /\
  (exists why,
     fst down =
       JSONResponse 500
         {| success := false; detail := "Download failed: " ++ why;
            message := "Request failed" |}) /\
  map download_count (files (snd up)) = [0] /\
  map download_count (files (snd down)) = [1].
Proof.
  cbv zeta.
  split; [vm_compute; reflexivity |]. split; [reflexivity |].
  split; [vm_compute; reflexivity |]. split; [vm_compute; reflexivity |].
  split; [reflexivity |].
  split; [exists (exn_str UnicodeEncodeError); vm_compute; reflexivity |].
  split; vm_compute; reflexivity.
Qed.

(** X29.  For a file within the size cap whose name and type can be
    written in Latin-1, with the GridFS write, the insert, the query and
    the GridFS read all succeeding, and provided the generated code is not
    already the code of an active document, the upload returns a code and
    the download with that code right after it returns the very bytes of
    the file, its file name and its content type. *)
Theorem store_then_fetch_roundtrip
    (env : Env) (random_bytes : Z) (t_blob t_upload t_expiry : datetime)
    (file : UploadFile) (w : World) :
  validate_file_size (size file) default_max_size = true ->
  upload_error env = None ->
  insert_error env = None ->
  find_error env = None ->
  open_error env (next_oid w) = None ->
  ~ In (generate_download_code random_bytes 8) (active_codes w) ->
  latin1 (filename file) = true ->
  latin1 (content_type file) = true ->
  exists code w1 w2,
    upload_file env random_bytes t_blob t_upload t_expiry file w =
      (Ok (UploadOk code (filename file) (size file)), w1) /\
    download_file env code w1 =
      (Ok (StreamingResponse (content file) (content_type file)
             ("attachment; filename=" ++ dquote ++ filename file ++ dquote)),
       w2).
Proof.
  intros Hsize Hblob Hins Hfind Hopen Hfresh Hname Htype.
  set (code := generate_download_code random_bytes 8) in *.
  set (doc := stored_doc random_bytes t_upload t_expiry file w).
  set (w1 := {| files := files w ++ [doc];
                gridfs := <[next_oid w := stored_blob random_bytes t_blob file]>
                            (gridfs w);
                next_oid := N.succ (N.succ (next_oid w)) |}).
  assert (Hlook : List.find (by_code (upper code)) (files w1) = Some doc).
  { unfold code at 1. rewrite upper_generated. fold code.
    change (files w1) with (files w ++ [doc]).
    rewrite find_app_skip by (now apply find_by_code_absent).
    unfold List.find, by_code.
    change (download_code doc) with (upper code).
    unfold code. rewrite upper_generated, String.eqb_refl. reflexivity. }
  exists code, w1, (snd (increment_download_count env (_id doc) w1)). split.
  - apply upload_file_ok; assumption.
  - rewrite (download_file_found env code w1 doc
               (stored_blob random_bytes t_blob file) Hfind Hlook Hopen).
    + change (grid_filename (stored_blob random_bytes t_blob file))
        with (filename file).
      change (mime_type doc) with (content_type file).
      rewrite Hname, Htype. reflexivity.
    + change (gridfs w1) with
        (<[next_oid w := stored_blob random_bytes t_blob file]> (gridfs w)).
      apply lookup_insert_eq.
Qed.

Lemma store_then_fetch_roundtrip_witness :
  validate_file_size (size hello) default_max_size = true /\
  ~ In (generate_download_code 5 8) (active_codes Mongo.empty) /\
  latin1 (filename hello) = true /\ latin1 (content_type hello) = true /\
  exists code w1 w2,
    upload_file no_faults 5 100 101 102 hello Mongo.empty =
      (Ok (UploadOk code (filename hello) (size hello)), w1) /\
    download_file no_faults code w1 =
      (Ok (StreamingResponse (content hello) (content_type hello)
             ("attachment; filename=" ++ dquote ++ filename hello ++ dquote)),
       w2).
Proof.
  assert (Hfresh : ~ In (generate_download_code 5 8) (active_codes Mongo.empty)).
  { intros []. }
  split; [reflexivity | split; [exact Hfresh |]].
  split; [reflexivity | split; [reflexivity |]].
  exact (store_then_fetch_roundtrip no_faults 5 100 101 102 hello Mongo.empty
           eq_refl eq_refl eq_refl eq_refl eq_refl Hfresh eq_refl eq_refl).
Defined.

(** ** The expiry sweep of the MongoDB client *)

Section MongoSweep.

Variable env : Env.

Lemma active_from_refl (l : list FileDoc) : active_from l l.
Proof. intros r Hin _. exact Hin. Qed.

Lemma update_first_active_from (id : ObjectId) (l : list FileDoc) :
  active_from l (fst (update_first id (set_is_active false) l)).
Proof.
  induction l as [|d l IH]; intros r Hin Ha; simpl in *; [contradiction |].
  destruct (_id d =? id)%N.
  - simpl in Hin. destruct Hin as [<- | Hin]; [discriminate Ha | now right].
  - destruct (update_first id (set_is_active false) l) as [l'' n] eqn:Hu.
    simpl in *. destruct Hin as [<- | Hin]; [now left | right; now apply IH].
Qed.

Lemma cleanup_one_blocked (r : FileDoc) (n : Z) (w : World) :
  delete_blocked env w (gridfs_id r) -> cleanup_one env r n w = (Ok n, w).
Proof.
  intros Hb. unfold cleanup_one, gridfs_delete, try_except, bind.
  destruct (delete_error env (gridfs_id r)) as [m|] eqn:Hd; [reflexivity |].
  destruct Hb as [Hb | Hb]; [congruence |]. rewrite Hb. reflexivity.
Qed.

(** One turn of the loop always returns; afterwards the deletion for its
    document is blocked, what was blocked stays blocked, and the active
    documents are among those active before. *)
Lemma cleanup_one_post (r : FileDoc) (n : Z) (w : World) :
  exists n' w',
    cleanup_one env r n w = (Ok n', w') /\
    delete_blocked env w' (gridfs_id r) /\
    (forall id, delete_blocked env w id -> delete_blocked env w' id) /\
    active_from (files w) (files w').
Proof.
  unfold cleanup_one, gridfs_delete, update_one, try_except, bind.
  destruct (delete_error env (gridfs_id r)) as [m|] eqn:Hd.
  { exists n, w. split; [reflexivity |]. split; [left; congruence |].
    split; [auto | apply active_from_refl]. }
  destruct (gridfs w !! gridfs_id r) as [f|] eqn:Hg.
  2:{ exists n, w. split; [reflexivity |]. split; [now right |].
      split; [auto | apply active_from_refl]. }
  assert (Hmono : forall g id,
            delete_blocked env w id ->
            delete_blocked env {| files := g; gridfs := delete (gridfs_id r) (gridfs w);
                              next_oid := next_oid w |} id).
  { intros g i [Hb | Hb]; [now left | right]. simpl.
    destruct (decide (gridfs_id r = i)) as [-> | Hne].
    - apply lookup_delete_eq.
    - rewrite lookup_delete_ne by assumption. exact Hb. }
  assert (Hgone : forall g,
            delete_blocked env {| files := g; gridfs := delete (gridfs_id r) (gridfs w);
                              next_oid := next_oid w |} (gridfs_id r)).
  { intros g. right. simpl. apply lookup_delete_eq. }
  destruct (update_error env (_id r)) as [m|] eqn:Hu; simpl.
  { eexists. eexists. split; [reflexivity |]. split; [apply Hgone |].
    split; [apply Hmono |]. intros x Hx _. exact Hx. }
  pose proof (update_first_active_from (_id r) (files w)) as Haf.
  destruct (update_first (_id r) (set_is_active false) (files w)) as [l k].
  simpl in *. eexists. eexists. split; [reflexivity |].
  split; [apply Hgone |]. split; [apply Hmono |]. exact Haf.
Qed.

Lemma cleanup_loop_post (l : list FileDoc) :
  forall (n : Z) (w : World),
  exists n' w',
    cleanup_loop env l n w = (Ok n', w') /\
    Forall (fun r => delete_blocked env w' (gridfs_id r)) l /\
    (forall id, delete_blocked env w id -> delete_blocked env w' id) /\
    active_from (files w) (files w').
Proof.
  induction l as [|r l IH]; intros n w.
  - exists n, w. split; [reflexivity |]. split; [constructor |].
    split; [auto | apply active_from_refl].
  - destruct (cleanup_one_post r n w) as (n1 & w1 & H1 & Hb1 & Hm1 & Ha1).
    destruct (IH n1 w1) as (n2 & w2 & H2 & Hb2 & Hm2 & Ha2).
    exists n2, w2. split.
    + simpl. unfold bind. rewrite H1. exact H2.
    + split; [constructor; [now apply Hm2 | exact Hb2] |].
      split; [intros i Hi; now apply Hm2, Hm1 |].
      intros x Hx Hact. apply Ha1; [now apply Ha2 | exact Hact].
Qed.

Lemma cleanup_loop_all_blocked (l : list FileDoc) (n : Z) (w : World) :
  Forall (fun r => delete_blocked env w (gridfs_id r)) l ->
  cleanup_loop env l n w = (Ok n, w).
Proof.
  induction 1 as [|r l Hr _ IH]; [reflexivity |].
  simpl. unfold bind. rewrite (cleanup_one_blocked r n w Hr). exact IH.
Qed.

End MongoSweep.

(** After a sweep whose query and whose GridFS deletions met no driver
    failure, every document that is still active and expired has lost its
    GridFS file. *)
Lemma mongo_swept (env : Env) (now : datetime) (w : World) :
  find_error env = None ->
  (forall id, delete_error env id = None) ->
  Forall (fun r => gridfs (snd (cleanup_expired_files env now w)) !! gridfs_id r
                   = None)
    (List.filter (expired now) (files (snd (cleanup_expired_files env now w)))).
Proof.
  intros Hf Hd.
  unfold cleanup_expired_files, find, try_except, bind.
  rewrite Hf.
  destruct (cleanup_loop_post env (List.filter (expired now) (files w)) 0 w)
    as (n' & w' & Hrun & Hb & _ & Ha).
  rewrite Hrun. cbn [snd].
  apply Forall_forall. intros r Hin. apply list_elem_of_In in Hin.
  apply filter_In in Hin as [Hin Hexp].
  rewrite Forall_forall in Hb.
  assert (Hr : delete_blocked env w' (gridfs_id r)).
  { apply Hb. apply list_elem_of_In. apply filter_In. split; [| exact Hexp].
    apply Ha; [exact Hin |].
    unfold expired in Hexp. apply andb_true_iff in Hexp. tauto. }
  destruct Hr as [Hr | Hr]; [now rewrite Hd in Hr | exact Hr].
Qed.

(** A sweep on a database in which every active expired document has
    lost its GridFS file can delete nothing, whatever fails in it. *)
Lemma mongo_sweep_nothing_left (env : Env) (now : datetime) (w : World) :
  Forall (fun r => gridfs w !! gridfs_id r = None)
    (List.filter (expired now) (files w)) ->
  cleanup_expired_files env now w = (Ok 0, w).
Proof.
  intros Hgone. unfold cleanup_expired_files, find, try_except, bind.
  destruct (find_error env) as [m|]; [reflexivity |].
  rewrite cleanup_loop_all_blocked; [reflexivity |].
  eapply Forall_impl; [exact Hgone |]. intros r Hr. now right.
Qed.

(** ** The expiry sweep of the Supabase client *)

Section SupabaseSweep.

Variable env : Supabase.Env.

Lemma supabase_loop_rows (l : list Supabase.FileRecord) :
  forall (n : Z) (w : Supabase.World),
  exists w',
    Supabase.cleanup_loop env l n w = (Ok (n + Z.of_nat (length l)), w') /\
    Supabase.rows w' = Supabase.rows w /\
    Supabase.storage w' = Supabase.storage w.
Proof.
  induction l as [|r l IH]; intros n w.
  - exists w. simpl. unfold ret. rewrite Z.add_0_r. auto.
  - simpl Supabase.cleanup_loop. unfold bind, try_except, Supabase.create_delete_task.
    destruct (Supabase.loop_running env); simpl.
    + match goal with
      | |- context [Supabase.cleanup_loop env l (n + 1) ?w1] =>
          destruct (IH (n + 1) w1) as (w' & Hrun & Hr & Hs)
      end.
      exists w'. rewrite Hrun. simpl in *. repeat split; try assumption.
      do 2 f_equal. lia.
    + destruct (IH (n + 1) w) as (w' & Hrun & Hr & Hs).
      exists w'. rewrite Hrun. repeat split; try assumption.
      do 2 f_equal. lia.
Qed.

Lemma expired_after_mark (now : datetime) (l : list Supabase.FileRecord) :
  List.filter (Supabase.expired now)
    (map (fun r => if Supabase.expired now r
                   then Supabase.set_is_active false r else r) l) = [].
Proof.
  induction l as [|r l IH]; [reflexivity |]. simpl.
  destruct (Supabase.expired now r) eqn:He.
  - unfold Supabase.expired at 1. simpl. rewrite andb_false_r. exact IH.
  - rewrite He. exact IH.
Qed.

Lemma mark_when_none_expired (now : datetime) (l : list Supabase.FileRecord) :
  List.filter (Supabase.expired now) l = [] ->
  map (fun r => if Supabase.expired now r
                then Supabase.set_is_active false r else r) l = l.
Proof.
  induction l as [|r l IH]; [reflexivity |]. simpl.
  destruct (Supabase.expired now r); [discriminate |].
  intros H. now rewrite IH.
Qed.

End SupabaseSweep.

(** After a sweep whose query and commit succeeded no row is active and
    expired. *)
Lemma supabase_swept (env : Supabase.Env) (now : datetime) (w : Supabase.World) :
  Supabase.query_error env = None ->
  Supabase.commit_error env = None ->
  List.filter (Supabase.expired now)
    (Supabase.rows (snd (Supabase.cleanup_expired_files env now w))) = [].
Proof.
  intros Hq Hc.
  unfold Supabase.cleanup_expired_files, Supabase.query_all,
    Supabase.update_commit, try_except, bind.
  rewrite Hq, Hc.
  destruct (supabase_loop_rows env
              (List.filter (Supabase.expired now) (Supabase.rows w)) 0 w)
    as (w1 & Hrun & Hr & Hs).
  rewrite Hrun. cbn [snd modify ret Supabase.rows]. apply expired_after_mark.
Qed.

(** A sweep on a table without an active expired row counts nothing,
    hands nothing to the event loop and writes nothing, whatever fails in
    it. *)
Lemma supabase_sweep_nothing_left (env : Supabase.Env) (now : datetime)
    (w : Supabase.World) :
  List.filter (Supabase.expired now) (Supabase.rows w) = [] ->
  Supabase.cleanup_expired_files env now w = (Ok 0, w).
Proof.
  intros Hnone.
  unfold Supabase.cleanup_expired_files, Supabase.query_all,
    Supabase.update_commit, try_except, bind.
  destruct (Supabase.query_error env) as [m|]; [reflexivity |].
  rewrite Hnone. cbn [Supabase.cleanup_loop ret].
  destruct (Supabase.commit_error env) as [m|]; [reflexivity |].
  cbn [modify ret]. rewrite mark_when_none_expired by assumption.
  destruct w; reflexivity.
Qed.

(** C7 as stated fails: a failure that the first sweep meets and the
    second does not leaves work for the second.  With a GridFS deletion
    that fails in the first run only, the first sweep of the MongoDB client
    returns 0 and the second, at the same time and on the state the first
    one left, returns 1 and marks the document inactive.  With a commit
    that fails in the first run only, the first sweep of the Supabase
    client rolls back and returns 0, and the second marks the row inactive
    and returns 1. *)
Lemma second_sweep_after_failed_first :
  let first := Mongo.cleanup_expired_files delete_down 999999999999 w_hello in
  let second := Mongo.cleanup_expired_files Mongo.no_faults 999999999999
                  (snd first) in
  let sfirst := Supabase.cleanup_expired_files commit_down 300 sw_old in
  let ssecond := Supabase.cleanup_expired_files Supabase.no_faults 300
                   (snd sfirst) in
  fst first = Ok 0 /\ map is_active (files (snd first)) = [true] /\
  fst second = Ok 1 /\ map is_active (files (snd second)) = [false] /\
  fst sfirst = Ok 0 /\
  map Supabase.is_active (Supabase.rows (snd sfirst)) = [true] /\
  fst ssecond = Ok 1 /\
  map Supabase.is_active (Supabase.rows (snd ssecond)) = [false].
Proof. vm_compute. repeat split; reflexivity. Qed.

(** C7, amended.  When the query and the GridFS deletions of a first
    sweep of the MongoDB client meet no driver failure, every document
    that is still active and expired afterwards has lost its GridFS file,
    and a second sweep at the same time on the state the first one left
    returns 0 and leaves the whole database as it is, whatever fails during
    the second.  When the query and the commit of a first sweep of the
    Supabase client succeed, no row is active and expired afterwards, and a
    second sweep returns 0 and leaves the table, the bucket and the pending
    deletions as they are, whatever fails during the second. *)
Theorem second_sweep_is_a_no_op
    (menv menv' : Mongo.Env) (senv senv' : Supabase.Env) (now : datetime)
    (mw : Mongo.World) (sw : Supabase.World) :
  find_error menv = None ->
  (forall id, delete_error menv id = None) ->
  Supabase.query_error senv = None ->
  Supabase.commit_error senv = None ->
  (let w1 := snd (Mongo.cleanup_expired_files menv now mw) in
   Forall (fun r => gridfs w1 !! gridfs_id r = None)
     (List.filter (Mongo.expired now) (files w1)) /\
   Mongo.cleanup_expired_files menv' now w1 = (Ok 0, w1)) /\
  (let w1 := snd (Supabase.cleanup_expired_files senv now sw) in
   List.filter (Supabase.expired now) (Supabase.rows w1) = [] /\
   Supabase.cleanup_expired_files senv' now w1 = (Ok 0, w1)).
Proof.
  intros Hf Hd Hq Hc. split.
  - pose proof (mongo_swept menv now mw Hf Hd) as Hgone.
    split; [exact Hgone | now apply mongo_sweep_nothing_left].
  - pose proof (supabase_swept senv now sw Hq Hc) as Hnone.
    split; [exact Hnone | now apply supabase_sweep_nothing_left].
Qed.

Lemma second_sweep_is_a_no_op_witness :
  find_error Mongo.no_faults = None /\
  (forall id, delete_error Mongo.no_faults id = None) /\
  Supabase.query_error Supabase.no_faults = None /\
  Supabase.commit_error Supabase.no_faults = None /\
  fst (Mongo.cleanup_expired_files Mongo.no_faults 999999999999 w_hello) = Ok 1 /\
  Mongo.cleanup_expired_files delete_down 999999999999
    (snd (Mongo.cleanup_expired_files Mongo.no_faults 999999999999 w_hello)) =
    (Ok 0, snd (Mongo.cleanup_expired_files Mongo.no_faults 999999999999 w_hello)) /\
  fst (Supabase.cleanup_expired_files Supabase.no_faults 300 sw_old) = Ok 1 /\
  Supabase.cleanup_expired_files commit_down 300
    (snd (Supabase.cleanup_expired_files Supabase.no_faults 300 sw_old)) =
    (Ok 0, snd (Supabase.cleanup_expired_files Supabase.no_faults 300 sw_old)).
Proof.
  assert (Hd : forall id, delete_error Mongo.no_faults id = None)
    by (intros id; reflexivity).
  destruct (second_sweep_is_a_no_op Mongo.no_faults delete_down
              Supabase.no_faults commit_down 999999999999 w_hello sw_old
              eq_refl Hd eq_refl eq_refl) as [[_ Hm] [_ Hs]].
  split; [reflexivity | split; [exact Hd |]].
  split; [reflexivity | split; [reflexivity |]].
  split; [reflexivity | split; [exact Hm |]].
  split; [reflexivity | exact Hs].
Defined.

(** *** Deletion failures during the sweep *)

(** Without failures the sweep does its work: at a time past the expiry
    date of the document of [w_hello] it deletes the GridFS file, marks the
    document inactive and returns 1, and a download with the code is then
    answered with 404. *)
Example mongo_sweep_then_fetch :
  let run := Mongo.cleanup_expired_files Mongo.no_faults 999999999999 w_hello in
  fst run = Ok 1 /\
  map is_active (files (snd run)) = [false] /\
  gridfs (snd run) !! 0%N = None /\
  fst (respond (download_file Mongo.no_faults "00000000") (snd run)) =
    JSONResponse 404 {| success := false; detail := "Invalid download code";
                        message := "Request failed" |}.
Proof. vm_compute. repeat split; reflexivity. Qed.

(** C6 at the failing input.  The one document of [w_hello] is active and
    past its expiry date at the time of the sweep.  With a GridFS deletion
    that raises, the sweep of the MongoDB client returns 0 and leaves the
    database as it was: the document is still active, and a download with
    its code is still answered with the file. *)
Theorem mongo_sweep_delete_failure_blocks_deactivation :
  let now := 999999999999 in
  let run := Mongo.cleanup_expired_files delete_down now w_hello in
  map (Mongo.expired now) (files w_hello) = [true] /\
  run = (Ok 0, w_hello) /\
  map is_active (files (snd run)) = [true] /\
  fst (respond (download_file delete_down "00000000") (snd run)) =
    StreamingResponse (content hello) "text/plain"
      ("attachment; filename=" ++ dquote ++ "a.txt" ++ dquote).
Proof. vm_compute. repeat split; reflexivity. Qed.

(** X2.  The sweep of the Supabase client, by contrast, marks every
    expired active row inactive and counts it, whether or not the deletion
    of its storage object could be handed to the event loop. *)
Lemma supabase_sweep_deactivates
    (env : Supabase.Env) (now : datetime) (w : Supabase.World) :
  Supabase.query_error env = None ->
  Supabase.commit_error env = None ->
  let run := Supabase.cleanup_expired_files env now w in
  fst run = Ok (Z.of_nat (length (List.filter (Supabase.expired now)
                                    (Supabase.rows w)))) /\
  Supabase.rows (snd run) =
    map (fun r => if Supabase.expired now r
                  then Supabase.set_is_active false r else r)
        (Supabase.rows w) /\
  List.filter (Supabase.expired now) (Supabase.rows (snd run)) = [].
Proof.
  intros Hq Hc.
  unfold Supabase.cleanup_expired_files, Supabase.query_all,
    Supabase.update_commit, try_except, bind.
  rewrite Hq, Hc.
  destruct (supabase_loop_rows env
              (List.filter (Supabase.expired now) (Supabase.rows w)) 0 w)
    as (w1 & Hrun & Hr & Hs).
  rewrite Hrun. simpl. rewrite Hr.
  split; [reflexivity | split; [reflexivity | apply expired_after_mark]].
Qed.

Lemma supabase_sweep_deactivates_witness :
  Supabase.query_error no_loop = None /\
  Supabase.commit_error no_loop = None /\
  fst (Supabase.cleanup_expired_files no_loop 300 sw_old) = Ok 1 /\
  Supabase.rows (snd (Supabase.cleanup_expired_files no_loop 300 sw_old)) =
    [Supabase.set_is_active false old_row].
Proof.
  split; [reflexivity | split; [reflexivity |]].
  destruct (supabase_sweep_deactivates no_loop 300 sw_old eq_refl eq_refl)
    as (H1 & H2 & _).
  split; [exact H1 | exact H2].
Defined.

(** ** What [create_file_record] of the Supabase client can do *)

(** [create_file_record] of the Supabase client either adds the one row
    it built and returns it, or raises 500 and leaves the state as it
    was. *)
Lemma supabase_create_file_record_outcome
    (env : Supabase.Env) (uuid_bytes : Z) (now_upload now_expiry : datetime)
    (code : string) (file : UploadFile) (path : string) (expiry_days : Z)
    (w : Supabase.World) :
  (exists expiry,
     Supabase.create_file_record env uuid_bytes now_upload now_expiry code file
       path expiry_days w =
     (Ok (new_row uuid_bytes now_upload code file path expiry),
      with_row (new_row uuid_bytes now_upload code file path expiry) w) /\
     clashes (new_row uuid_bytes now_upload code file path expiry) w = false) \/
  (exists why,
     Supabase.create_file_record env uuid_bytes now_upload now_expiry code file
       path expiry_days w =
     (Raise (HTTPException 500 ("Failed to create file record: " ++ why)), w)).
Proof.
  assert (Hadd : forall expiry,
    (Supabase.add_commit env (new_row uuid_bytes now_upload code file path expiry) w =
       (Ok tt, with_row (new_row uuid_bytes now_upload code file path expiry) w) /\
     clashes (new_row uuid_bytes now_upload code file path expiry) w = false) \/
    (exists e,
       Supabase.add_commit env (new_row uuid_bytes now_upload code file path expiry) w =
       (Raise (DriverError e), w))).
  { intros expiry. unfold Supabase.add_commit.
    destruct (Supabase.commit_error env) as [m|]; [right; eexists; reflexivity |].
    fold (clashes (new_row uuid_bytes now_upload code file path expiry) w).
    destruct (clashes (new_row uuid_bytes now_upload code file path expiry) w).
    - right. eexists. reflexivity.
    - left. split; reflexivity. }
  assert (Hrun : forall expiry,
    (exists x,
       try_except
         (_ <- Supabase.add_commit env
                 (new_row uuid_bytes now_upload code file path expiry) ;;
          ret (new_row uuid_bytes now_upload code file path expiry))
         (fun e => raise (HTTPException 500
                            ("Failed to create file record: " ++ exn_str e))) w =
       (Ok (new_row uuid_bytes now_upload code file path x),
        with_row (new_row uuid_bytes now_upload code file path x) w) /\
       clashes (new_row uuid_bytes now_upload code file path x) w = false) \/
    (exists why,
       try_except
         (_ <- Supabase.add_commit env
                 (new_row uuid_bytes now_upload code file path expiry) ;;
          ret (new_row uuid_bytes now_upload code file path expiry))
         (fun e => raise (HTTPException 500
                            ("Failed to create file record: " ++ exn_str e))) w =
       (Raise (HTTPException 500 ("Failed to create file record: " ++ why)), w))).
  { intros expiry. unfold try_except, bind.
    destruct (Hadd expiry) as [[-> Hfree] | [e ->]].
    - left. exists expiry. split; [reflexivity | exact Hfree].
    - right. eexists. reflexivity. }
  unfold Supabase.create_file_record, timedelta, datetime_add.
  destruct (expiry_days >? 0).
  - destruct ((expiry_days <? -2147483648) || (2147483647 <? expiry_days)).
    { right. eexists. reflexivity. }
    destruct (Z.abs expiry_days >? 999999999).
    { right. eexists. reflexivity. }
    destruct ((datetime_min <=? now_expiry + timedelta_days expiry_days) &&
              (now_expiry + timedelta_days expiry_days <=? datetime_max)) eqn:Hin.
    + destruct (Hrun (Some (now_expiry + timedelta_days expiry_days)))
        as [(x & Hx & Hfree) | (why & Hwhy)].
      * left. exists x. split; [| exact Hfree]. rewrite <- Hx.
        unfold try_except, bind, ret. rewrite Hin. reflexivity.
      * right. exists why. rewrite <- Hwhy.
        unfold try_except, bind, ret. rewrite Hin. reflexivity.
    + right. eexists. unfold try_except, bind, ret. rewrite Hin. reflexivity.
  - destruct (Hrun None) as [(x & Hx & Hfree) | (why & Hwhy)].
    + left. exists x. split; [| exact Hfree]. rewrite <- Hx. reflexivity.
    + right. exists why. rewrite <- Hwhy. reflexivity.
Qed.

(** ** Case of the download code *)

Section CaseFacts.

Variable env : Mongo.Env.

Lemma get_file_by_code_upper (code : string) (w : World) :
  get_file_by_code env (upper code) w = get_file_by_code env code w.
Proof.
  unfold get_file_by_code, find_one. rewrite upper_idem. reflexivity.
Qed.

End CaseFacts.

(** X1.  In [main.py] download and preview uppercase the code before the
    lookup, which uppercases it again: a code and its uppercase form get
    the same answer and leave the same state, and the record is stored
    under the uppercase form of its code. *)
Lemma main_lookup_case_insensitive (env : Mongo.Env) (code : string) (w : World) :
  download_file env code w = download_file env (upper code) w /\
  preview_file env code w = preview_file env (upper code) w /\
  get_file_by_code env code w = get_file_by_code env (upper code) w /\
  (forall t1 t2 c file gid r w',
     create_file_record env t1 t2 c file gid w = (Ok r, w') ->
     download_code r = upper c).
Proof.
  split; [| split; [| split]].
  - unfold download_file. rewrite upper_idem. reflexivity.
  - unfold preview_file. rewrite upper_idem. reflexivity.
  - symmetry. apply get_file_by_code_upper.
  - intros t1 t2 c file gid r w'.
    unfold create_file_record, insert_one, try_except, bind, new_ObjectId.
    destruct (insert_error env); simpl; intros H; inversion H. reflexivity.
Qed.



(** ** The expiry date of a new record *)

Section RecordFacts.

Variable env : Supabase.Env.
Variables (uuid_bytes : Z) (now_upload now_expiry : datetime).
Variables (code : string) (file : UploadFile) (path : string).
Variable w : Supabase.World.

Hypothesis commit_ok : Supabase.commit_error env = None.

(** No row has the primary key or the code of the new one. *)
Hypothesis no_clash :
  forall expiry,
    clashes (new_row uuid_bytes now_upload code file path expiry) w = false.

Lemma create_file_record_no_expiry (expiry_days : Z) :
  expiry_days <= 0 ->
  Supabase.create_file_record env uuid_bytes now_upload now_expiry code file
    path expiry_days w =
  (Ok (new_row uuid_bytes now_upload code file path None),
   with_row (new_row uuid_bytes now_upload code file path None) w).
Proof.
  intros Hd. pose proof (no_clash None) as Hfree. unfold clashes in Hfree.
  unfold Supabase.create_file_record, Supabase.add_commit, try_except, bind.
  destruct (Z.gtb_spec expiry_days 0) as [Hpos | _]; [lia |].
  unfold ret at 1. rewrite commit_ok.
  cbn [new_row Supabase.id Supabase.download_code] in Hfree.
  cbn [Supabase.id Supabase.download_code]. rewrite Hfree. reflexivity.
Qed.

Lemma create_file_record_expiry (expiry_days : Z) :
  0 < expiry_days -> expiry_days <= 999999999 ->
  datetime_min <= now_expiry + timedelta_days expiry_days <= datetime_max ->
  Supabase.create_file_record env uuid_bytes now_upload now_expiry code file
    path expiry_days w =
  (Ok (new_row uuid_bytes now_upload code file path
         (Some (now_expiry + timedelta_days expiry_days))),
   with_row (new_row uuid_bytes now_upload code file path
               (Some (now_expiry + timedelta_days expiry_days))) w).
Proof.
  intros Hpos Hmax [Hlo Hhi].
  pose proof (no_clash (Some (now_expiry + timedelta_days expiry_days))) as Hfree.
  unfold clashes in Hfree.
  unfold Supabase.create_file_record, Supabase.add_commit, timedelta,
    datetime_add, try_except, bind.
  destruct (Z.gtb_spec expiry_days 0) as [_ | Hn]; [| lia].
  destruct (Z.ltb_spec expiry_days (-2147483648)) as [Hneg | _]; [lia |].
  destruct (Z.ltb_spec 2147483647 expiry_days) as [Hbig | _]; [lia |].
  cbn [orb].
  destruct (Z.gtb_spec (Z.abs expiry_days) 999999999) as [Hbig | _]; [lia |].
  unfold ret at 1.
  destruct (Z.leb_spec datetime_min (now_expiry + timedelta_days expiry_days))
    as [_ | Hn]; [| lia].
  destruct (Z.leb_spec (now_expiry + timedelta_days expiry_days) datetime_max)
    as [_ | Hn]; [| lia].
  cbn [andb]. unfold ret at 1 2. rewrite commit_ok.
  cbn [new_row Supabase.id Supabase.download_code] in Hfree.
  cbn [Supabase.id Supabase.download_code]. rewrite Hfree. reflexivity.
Qed.

Lemma create_file_record_overflow (expiry_days : Z) :
  999999999 < expiry_days \/
  (0 < expiry_days /\
   datetime_max < now_expiry + timedelta_days expiry_days) ->
  exists why,
    Supabase.create_file_record env uuid_bytes now_upload now_expiry code file
      path expiry_days w =
    (Raise (HTTPException 500 ("Failed to create file record: " ++ why)), w).
Proof.
  intros Hout.
  unfold Supabase.create_file_record, timedelta, datetime_add, try_except, bind.
  destruct (Z.gtb_spec expiry_days 0) as [Hpos | Hn]; [| lia].
  destruct ((expiry_days <? -2147483648) || (2147483647 <? expiry_days)).
  { eexists. reflexivity. }
  destruct (Z.gtb_spec (Z.abs expiry_days) 999999999) as [Hbig | Hsmall].
  { eexists. reflexivity. }
  unfold ret at 1.
  destruct (Z.leb_spec (now_expiry + timedelta_days expiry_days) datetime_max)
    as [Hle | _]; [lia |].
  rewrite andb_false_r. eexists. reflexivity.
Qed.

(** A lookup with the code of the row just added finds it. *)
Lemma lookup_new_row (expiry : option datetime) :
  Supabase.query_error env = None ->
  upper code = code ->
  Supabase.get_file_by_code env code
    (with_row (new_row uuid_bytes now_upload code file path expiry) w) =
  (Ok (Some (new_row uuid_bytes now_upload code file path expiry)),
   with_row (new_row uuid_bytes now_upload code file path expiry) w).
Proof.
  intros Hq Hup. pose proof (no_clash expiry) as Hfree. unfold clashes in Hfree.
  unfold Supabase.get_file_by_code, Supabase.query_first, try_except.
  rewrite Hq, Hup. do 2 f_equal. cbn [with_row Supabase.rows].
  cbn [new_row Supabase.download_code Supabase.id] in Hfree.
  induction (Supabase.rows w) as [|r l IH].
  - cbn [app List.find]. unfold Supabase.by_code.
    cbn [new_row Supabase.download_code Supabase.is_active].
    now rewrite String.eqb_refl.
  - cbn [existsb] in Hfree. apply orb_false_iff in Hfree as [Hr Hl].
    apply orb_false_iff in Hr as [_ Hr].
    cbn [app List.find]. unfold Supabase.by_code at 1. rewrite Hr.
    cbn [andb]. now apply IH.
Qed.

End RecordFacts.

(** C4 as stated fails: [timedelta] and [datetime] are bounded.  With a
    time to live of 1000000000 days, or of 3000000 days, which leads past
    the year 9999, [create_file_record] of the Supabase client raises 500
    and adds no row.  [create_file_record] of the MongoDB client takes no
    time to live, and the expiry date it stores is cut to the millisecond:
    with the clock at 102 it is 604800000000, not 102 + 7 days. *)
Lemma huge_ttl_is_refused :
  (exists why,
     Supabase.create_file_record Supabase.no_faults 7 100 101 "ABCD1234" hello
       "ABCD1234/a.txt" 1000000000 Supabase.empty =
     (Raise (HTTPException 500 ("Failed to create file record: " ++ why)),
      Supabase.empty)) /\
  (exists why,
     Supabase.create_file_record Supabase.no_faults 7 100 101 "ABCD1234" hello
       "ABCD1234/a.txt" 3000000 Supabase.empty =
     (Raise (HTTPException 500 ("Failed to create file record: " ++ why)),
      Supabase.empty)) /\
  map expiry_date (files w_hello) = [Some 604800000000] /\
  102 + timedelta_days 7 = 604800000102.
Proof.
  split.
  { exists "days=1000000000; must have magnitude <= 999999999"%string.
    vm_compute. reflexivity. }
  split.
  { exists "date value out of range"%string. vm_compute. reflexivity. }
  split; vm_compute; reflexivity.
Qed.

(** C4, amended.  [create_file_record] of the Supabase client adds an
    active row with [download_count = 0] and with no expiry date when
    [expiry_days] is 0 or less, and with the clock plus [expiry_days] days
    as its expiry date when [expiry_days] is positive, at most 999999999,
    and the sum is a [datetime]; a lookup with the code, when it is in
    uppercase, then returns that row.  Beyond that range it raises 500
    [Failed to create file record] and adds nothing.
    [create_file_record] of the MongoDB client takes no time to live: the
    document it stores expires seven days after the clock (a clock more
    than seven days before the end of the year 9999), cut to the
    millisecond. *)
Theorem new_record_expiry
    (senv : Supabase.Env) (uuid_bytes : Z) (now_upload now_expiry : datetime)
    (code : string) (file : UploadFile) (path : string) (expiry_days : Z)
    (sw : Supabase.World)
    (menv : Mongo.Env) (gid : ObjectId) (mw : Mongo.World) :
  Supabase.commit_error senv = None ->
  Supabase.query_error senv = None ->
  upper code = code ->
  (forall expiry,
     clashes (new_row uuid_bytes now_upload code file path expiry) sw = false) ->
  datetime_min <= now_expiry <= datetime_max ->
  let run := Supabase.create_file_record senv uuid_bytes now_upload now_expiry
               code file path expiry_days sw in
  (expiry_days <= 0 ->
   exists r,
     run = (Ok r, with_row r sw) /\
     Supabase.expiry_date r = None /\
     Supabase.is_active r = true /\ Supabase.download_count r = 0 /\
     Supabase.get_file_by_code senv code (with_row r sw) =
       (Ok (Some r), with_row r sw)) /\
  (0 < expiry_days -> expiry_days <= 999999999 ->
   now_expiry + timedelta_days expiry_days <= datetime_max ->
   exists r,
     run = (Ok r, with_row r sw) /\
     Supabase.expiry_date r = Some (now_expiry + timedelta_days expiry_days) /\
     Supabase.is_active r = true /\ Supabase.download_count r = 0 /\
     Supabase.get_file_by_code senv code (with_row r sw) =
       (Ok (Some r), with_row r sw)) /\
  (999999999 < expiry_days \/
   (0 < expiry_days /\
    datetime_max < now_expiry + timedelta_days expiry_days) ->
   exists why,
     run = (Raise (HTTPException 500
                     ("Failed to create file record: " ++ why)), sw)) /\
  (now_expiry + timedelta_days 7 <= datetime_max ->
  match Mongo.create_file_record menv now_upload now_expiry code file gid mw with
  | (Ok r, w') =>
      exists d, files w' = files mw ++ [d] /\
        expiry_date d = Some (bson_date (now_expiry + timedelta_days 7)) /\
        is_active d = true /\ download_count d = 0
  | (Raise _, w') => files w' = files mw
  end).
Proof.
  intros Hc Hq Hup Hfree Hnow run. subst run.
  split; [| split; [| split]].
  - intros Hd. eexists.
    split; [apply create_file_record_no_expiry; assumption |].
    repeat split. apply lookup_new_row; assumption.
  - intros Hpos Hmax Hhi. eexists.
    split.
    + apply create_file_record_expiry; try assumption.
      unfold timedelta_days. split; [| assumption]. lia.
    + repeat split. apply lookup_new_row; assumption.
  - apply create_file_record_overflow.
  - intros _.
    unfold Mongo.create_file_record, insert_one, try_except, bind, new_ObjectId.
    destruct (insert_error menv); cbn; [reflexivity |].
    eexists. repeat split.
Qed.

Lemma new_record_expiry_witness :
  Supabase.commit_error Supabase.no_faults = None /\
  Supabase.query_error Supabase.no_faults = None /\
  upper "ABCD1234" = "ABCD1234"%string /\
  (forall expiry,
     clashes (new_row 7 100 "ABCD1234" hello "ABCD1234/a.txt" expiry)
       Supabase.empty = false) /\
  datetime_min <= 101 <= datetime_max /\
  (exists r,
     Supabase.create_file_record Supabase.no_faults 7 100 101 "ABCD1234" hello
       "ABCD1234/a.txt" 0 Supabase.empty = (Ok r, with_row r Supabase.empty) /\
     Supabase.expiry_date r = None /\
     Supabase.is_active r = true /\ Supabase.download_count r = 0 /\
     Supabase.get_file_by_code Supabase.no_faults "ABCD1234"
       (with_row r Supabase.empty) = (Ok (Some r), with_row r Supabase.empty)) /\
  (exists r,
     Supabase.create_file_record Supabase.no_faults 7 100 101 "ABCD1234" hello
       "ABCD1234/a.txt" 7 Supabase.empty = (Ok r, with_row r Supabase.empty) /\
     Supabase.expiry_date r = Some (101 + timedelta_days 7) /\
     Supabase.is_active r = true /\ Supabase.download_count r = 0 /\
     Supabase.get_file_by_code Supabase.no_faults "ABCD1234"
       (with_row r Supabase.empty) = (Ok (Some r), with_row r Supabase.empty)).
Proof.
  assert (Hfree : forall expiry,
            clashes (new_row 7 100 "ABCD1234" hello "ABCD1234/a.txt" expiry)
              Supabase.empty = false) by (intros expiry; reflexivity).
  assert (Hnow : datetime_min <= 101 <= datetime_max)
    by (unfold datetime_min, datetime_max; lia).
  split; [reflexivity | split; [reflexivity | split; [reflexivity |]]].
  split; [exact Hfree | split; [exact Hnow |]].
  split.
  - refine (proj1 (new_record_expiry Supabase.no_faults 7 100 101 "ABCD1234"
                     hello "ABCD1234/a.txt" 0 Supabase.empty Mongo.no_faults
                     0%N Mongo.empty eq_refl eq_refl eq_refl Hfree Hnow) _).
    lia.
  - refine (proj1 (proj2 (new_record_expiry Supabase.no_faults 7 100 101
                     "ABCD1234" hello "ABCD1234/a.txt" 7 Supabase.empty
                     Mongo.no_faults 0%N Mongo.empty eq_refl eq_refl eq_refl
                     Hfree Hnow)) _ _ _).
    + lia.
    + lia.
    + unfold timedelta_days, datetime_max. lia.
Defined.

Lemma upload_too_large_witness :
  default_max_size < size too_big /\
  upload_file Mongo.no_faults 5 100 101 102 too_big w_hello =
  (Ok (JSONResponse 413
         {| success := false; detail := "File size exceeds 100MB limit";
            message := "File too large" |}), w_hello).
Proof.
  assert (Hbig : default_max_size < size too_big) by reflexivity.
  split; [exact Hbig |].
  exact (upload_too_large Mongo.no_faults 5 100 101 102 too_big w_hello Hbig).
Defined.

(** ** Downloads and the count of downloads *)

Section DownloadFacts.

Variable env : Env.

Lemma update_first_unique (id : ObjectId) (f : FileDoc -> FileDoc)
    (l : list FileDoc) :
  (forall d, _id (f d) = _id d) ->
  NoDup (map _id l) ->
  fst (update_first id f l) = map (fun d => if (_id d =? id)%N then f d else d) l.
Proof.
  intros Hf. induction l as [|d l IH]; intros Hnd; [reflexivity |].
  simpl in *. apply NoDup_cons in Hnd as [Hd Hnd].
  destruct (N.eqb_spec (_id d) id) as [Heq | Hne].
  - simpl. f_equal. rewrite <- (map_id l) at 1. apply map_ext_in.
    intros x Hx. destruct (N.eqb_spec (_id x) id) as [Hx' | _]; [| reflexivity].
    exfalso. apply Hd. apply list_elem_of_In. rewrite Heq, <- Hx'.
    now apply in_map.
  - destruct (update_first id f l) as [l' n] eqn:Hu. simpl in *.
    now rewrite IH.
Qed.

Lemma find_map_same (q : FileDoc -> bool) (f : FileDoc -> FileDoc)
    (l : list FileDoc) :
  (forall d, q (f d) = q d) ->
  List.find q (map f l) = option_map f (List.find q l).
Proof.
  intros Hq. induction l as [|d l IH]; [reflexivity |].
  simpl. rewrite Hq. destruct (q d); [reflexivity | exact IH].
Qed.

Lemma by_code_bump (code : string) (id : ObjectId) (d : FileDoc) :
  by_code code (bump id d) = by_code code d.
Proof. unfold bump. destruct (_id d =? id)%N; reflexivity. Qed.

Lemma id_bump (id : ObjectId) (d : FileDoc) : _id (bump id d) = _id d.
Proof. unfold bump. destruct (_id d =? id)%N; reflexivity. Qed.

(** The database after an increment that goes through, and after one
    that fails. *)
Lemma increment_download_count_state (id : ObjectId) (w : World) :
  update_error env id = None ->
  NoDup (map _id (files w)) ->
  snd (increment_download_count env id w) =
  {| files := map (bump id) (files w); gridfs := gridfs w;
     next_oid := next_oid w |}.
Proof.
  intros Hupd Hnd.
  unfold increment_download_count, update_one, try_except, bind.
  rewrite Hupd.
  pose proof (update_first_unique id inc_download_count (files w)
                (fun d => eq_refl) Hnd) as Hu.
  destruct (update_first id inc_download_count (files w)) as [l n].
  simpl in Hu. subst l. reflexivity.
Qed.

Lemma increment_download_count_failed (id : ObjectId) (msg : string) (w : World) :
  update_error env id = Some msg ->
  snd (increment_download_count env id w) = w.
Proof.
  intros Hupd. unfold increment_download_count, update_one, try_except, bind.
  rewrite Hupd. reflexivity.
Qed.

(** The database after a download whose lookup finds [r], whose GridFS
    read succeeds and whose increment goes through, whatever becomes of
    the response. *)
Lemma download_file_counted (code : string) (w : World) (r : FileDoc)
    (blob : GridFile) :
  find_error env = None ->
  List.find (by_code (upper code)) (files w) = Some r ->
  open_error env (gridfs_id r) = None ->
  gridfs w !! gridfs_id r = Some blob ->
  update_error env (_id r) = None ->
  NoDup (map _id (files w)) ->
  snd (download_file env code w) =
  {| files := map (bump (_id r)) (files w); gridfs := gridfs w;
     next_oid := next_oid w |}.
Proof.
  intros Hfind Hr Hopen Hblob Hupd Hnd.
  rewrite (download_file_found env code w r blob) by assumption.
  cbn [snd]. now apply increment_download_count_state.
Qed.

End DownloadFacts.

(** X5.  A download that finds a record, reads its GridFS file and
    increments without failure raises the count of downloads of the record
    by exactly one and leaves every other document, the bucket and the
    number of documents as they were.  It answers with the bytes and the
    name of that GridFS file and the type of the record when the name and
    the type can be written in Latin-1; otherwise it raises 500 [Download
    failed], and the download it did not serve is counted all the same. *)
Theorem download_counts_once
    (env : Env) (code : string) (w : World) (r : FileDoc) (blob : GridFile) :
  find_error env = None ->
  List.find (by_code (upper code)) (files w) = Some r ->
  open_error env (gridfs_id r) = None ->
  gridfs w !! gridfs_id r = Some blob ->
  update_error env (_id r) = None ->
  NoDup (map _id (files w)) ->
  let run := download_file env code w in
  (latin1 (grid_filename blob) && latin1 (mime_type r) = true ->
   fst run = Ok (StreamingResponse (grid_data blob) (mime_type r)
                   ("attachment; filename=" ++ dquote ++ grid_filename blob
                    ++ dquote))) /\
  (latin1 (grid_filename blob) && latin1 (mime_type r) = false ->
   exists why,
     fst run = Raise (HTTPException 500 ("Download failed: " ++ why))) /\
  List.find (by_code (upper code)) (files (snd run)) =
    Some (inc_download_count r) /\
  download_count (inc_download_count r) = download_count r + 1 /\
  (forall i d, files w !! i = Some d -> d <> r ->
     files (snd run) !! i = Some d) /\
  length (files (snd run)) = length (files w) /\
  gridfs (snd run) = gridfs w.
Proof.
  intros Hfind Hr Hopen Hblob Hupd Hnd run. subst run.
  rewrite (download_file_counted env code w r blob) by assumption.
  rewrite (download_file_found env code w r blob) by assumption.
  cbn [fst files gridfs].
  split; [intros ->; reflexivity |].
  split; [intros ->; eexists; reflexivity |].
  split.
  { rewrite find_map_same by (intros d; apply by_code_bump).
    rewrite Hr. simpl. unfold bump. now rewrite N.eqb_refl. }
  split; [reflexivity |].
  split; [| split; [apply length_map | reflexivity]].
  intros i d Hi Hne. rewrite list_lookup_fmap, Hi. simpl. f_equal.
  unfold bump. destruct (N.eqb_spec (_id d) (_id r)) as [Heq | _]; [| reflexivity].
  exfalso. apply Hne.
  apply find_some in Hr as [Hin _]. apply list_elem_of_In in Hin.
  apply list_elem_of_lookup in Hin as [j Hj].
  assert (Hij : i = j).
  { eapply NoDup_lookup; [exact Hnd | |].
    - rewrite list_lookup_fmap, Hi. reflexivity.
    - rewrite list_lookup_fmap, Hj. simpl. now rewrite Heq. }
  subst j. congruence.
Qed.

Lemma download_counts_once_witness :
  NoDup (map _id (files w_hello)) /\
  fst (download_file Mongo.no_faults "00000000" w_hello) =
    Ok (StreamingResponse (content hello) "text/plain"
          ("attachment; filename=" ++ dquote ++ "a.txt" ++ dquote)) /\
  List.find (by_code (upper "00000000")) (files (snd (download_file Mongo.no_faults "00000000" w_hello))) =
    Some (inc_download_count (stored_doc 5 101 102 hello Mongo.empty)) /\
  gridfs (snd (download_file Mongo.no_faults "00000000" w_hello)) = gridfs w_hello.
Proof.
  assert (Hnd : NoDup (map _id (files w_hello))).
  { vm_compute. apply NoDup_singleton. }
  split; [exact Hnd |].
  destruct (download_counts_once Mongo.no_faults "00000000" w_hello
              (stored_doc 5 101 102 hello Mongo.empty)
              (stored_blob 5 100 hello) eq_refl eq_refl eq_refl eq_refl
              eq_refl Hnd) as (Hr & _ & Hf & _ & _ & _ & Hg).
  split; [exact (Hr eq_refl) | split; [exact Hf | exact Hg]].
Defined.

Section RepeatedDownloads.

Variable env : Env.
Variable code : string.

Hypothesis find_ok : find_error env = None.

Lemma inc_n_times (n : nat) :
  forall (w : World) (r : FileDoc) (blob : GridFile),
  List.find (by_code (upper code)) (files w) = Some r ->
  open_error env (gridfs_id r) = None ->
  gridfs w !! gridfs_id r = Some blob ->
  update_error env (_id r) = None ->
  NoDup (map _id (files w)) ->
  exists r',
    List.find (by_code (upper code)) (files (downloads env code n w)) = Some r' /\
    download_count r' = download_count r + Z.of_nat n /\
    _id r' = _id r /\ gridfs_id r' = gridfs_id r /\
    gridfs (downloads env code n w) = gridfs w /\
    length (files (downloads env code n w)) = length (files w).
Proof.
  induction n as [|n IH]; intros w r blob Hr Hopen Hblob Hupd Hnd.
  - exists r. simpl. rewrite Z.add_0_r.
    repeat split; try reflexivity. exact Hr.
  - simpl downloads.
    rewrite (download_file_counted env code w r blob) by assumption.
    set (w1 := {| files := map (bump (_id r)) (files w); gridfs := gridfs w;
                  next_oid := next_oid w |}).
    assert (Hr1 : List.find (by_code (upper code)) (files w1) =
                  Some (inc_download_count r)).
    { cbn [files w1]. rewrite find_map_same by (intros d; apply by_code_bump).
      rewrite Hr. simpl. unfold bump. now rewrite N.eqb_refl. }
    assert (Hnd1 : NoDup (map _id (files w1))).
    { cbn [files w1]. rewrite map_map.
      erewrite map_ext; [exact Hnd |]. intros d. apply id_bump. }
    destruct (IH w1 (inc_download_count r) blob Hr1 Hopen Hblob Hupd Hnd1)
      as (r' & Hf & Hc & Hi & Hg & Hgs & Hlen).
    exists r'. split; [exact Hf |]. split; [simpl in Hc; lia |].
    split; [exact Hi |]. split; [exact Hg |]. split; [exact Hgs |].
    rewrite Hlen. cbn [files w1]. apply length_map.
Qed.

End RepeatedDownloads.

(** X6.  After [n] downloads in a row with the same code, each finding the
    record, reading its GridFS file and incrementing without failure, the
    count of downloads of the record is [n] more than before: no download
    is counted twice and none is lost. *)
Theorem n_downloads_count_n
    (env : Env) (code : string) (n : nat) (w : World) (r : FileDoc)
    (blob : GridFile) :
  find_error env = None ->
  List.find (by_code (upper code)) (files w) = Some r ->
  open_error env (gridfs_id r) = None ->
  gridfs w !! gridfs_id r = Some blob ->
  update_error env (_id r) = None ->
  NoDup (map _id (files w)) ->
  option_map download_count
    (List.find (by_code (upper code)) (files (downloads env code n w))) =
    Some (download_count r + Z.of_nat n) /\
  gridfs (downloads env code n w) = gridfs w /\
  length (files (downloads env code n w)) = length (files w).
Proof.
  intros Hfind Hr Hopen Hblob Hupd Hnd.
  destruct (inc_n_times env code Hfind n w r blob Hr Hopen Hblob Hupd Hnd)
    as (r' & Hf & Hc & _ & _ & Hg & Hl).
  rewrite Hf. simpl. rewrite Hc. auto.
Qed.

Lemma n_downloads_count_n_witness :
  NoDup (map _id (files w_hello)) /\
  option_map download_count
    (List.find (by_code (upper "00000000"))
       (files (downloads Mongo.no_faults "00000000" 3 w_hello))) =
    Some (download_count (stored_doc 5 101 102 hello Mongo.empty) + Z.of_nat 3).
Proof.
  assert (Hnd : NoDup (map _id (files w_hello))).
  { vm_compute. apply NoDup_singleton. }
  split; [exact Hnd |].
  exact (proj1 (n_downloads_count_n Mongo.no_faults "00000000" 3 w_hello
                  (stored_doc 5 101 102 hello Mongo.empty)
                  (stored_blob 5 100 hello) eq_refl eq_refl eq_refl eq_refl
                  eq_refl Hnd)).
Defined.

(** X7.  When the increment of the count fails, the download goes on all
    the same: no exception of the increment reaches the caller, the answer
    is the file (or 500 [Download failed] when its name or the type cannot
    be written in Latin-1), and the database is left exactly as it was, so
    that download is not counted. *)
Theorem lost_increment_is_harmless
    (env : Env) (code msg : string) (w : World) (r : FileDoc) (blob : GridFile) :
  find_error env = None ->
  List.find (by_code (upper code)) (files w) = Some r ->
  open_error env (gridfs_id r) = None ->
  gridfs w !! gridfs_id r = Some blob ->
  update_error env (_id r) = Some msg ->
  (latin1 (grid_filename blob) && latin1 (mime_type r) = true ->
   download_file env code w =
   (Ok (StreamingResponse (grid_data blob) (mime_type r)
          ("attachment; filename=" ++ dquote ++ grid_filename blob ++ dquote)),
    w)) /\
  (latin1 (grid_filename blob) && latin1 (mime_type r) = false ->
   exists why,
     download_file env code w =
     (Raise (HTTPException 500 ("Download failed: " ++ why)), w)).
Proof.
  intros Hfind Hr Hopen Hblob Hupd.
  rewrite (download_file_found env code w r blob) by assumption.
  rewrite (increment_download_count_failed env (_id r) msg w) by assumption.
  split; intros ->; [reflexivity | eexists; reflexivity].
Qed.

Lemma lost_increment_is_harmless_witness :
  update_error update_down 1%N = Some "connection lost"%string /\
  download_file update_down "00000000" w_hello =
  (Ok (StreamingResponse (content hello) "text/plain"
         ("attachment; filename=" ++ dquote ++ "a.txt" ++ dquote)),
   w_hello).
Proof.
  split; [reflexivity |].
  exact (proj1 (lost_increment_is_harmless update_down "00000000"
                  "connection lost" w_hello
                  (stored_doc 5 101 102 hello Mongo.empty)
                  (stored_blob 5 100 hello) eq_refl eq_refl eq_refl eq_refl
                  eq_refl) eq_refl).
Defined.

(** X8.  When the lookup finds an active record but its GridFS file
    cannot be read, because the file is not in the bucket or because the
    read fails, the download raises a 404 whose detail starts with
    [File download failed], the count is not incremented and the database
    is unchanged, while preview still answers with the fields of the
    record. *)
Theorem missing_blob_is_404
    (env : Env) (code : string) (w : World) (r : FileDoc) :
  find_error env = None ->
  List.find (by_code (upper code)) (files w) = Some r ->
  open_error env (gridfs_id r) <> None \/ gridfs w !! gridfs_id r = None ->
  (exists why,
     download_file env code w =
       (Raise (HTTPException 404 ("File download failed: " ++ why)), w) /\
     respond (download_file env code) w =
       (JSONResponse 404
          {| success := false; detail := "File download failed: " ++ why;
             message := "Request failed" |}, w)) /\
  preview_file env code w =
    (Ok (PreviewOk (original_filename r) (file_size r) (mime_type r)
           (upload_date r) (download_count r)), w).
Proof.
  intros Hfind Hr Hmiss. split.
  - assert (Hrun : exists why,
              download_file env code w =
              (Raise (HTTPException 404 ("File download failed: " ++ why)), w)).
    { unfold download_file, try_except, bind.
      rewrite get_file_by_code_find by assumption. rewrite upper_idem, Hr.
      unfold download_file_from_mongodb, open_download_stream, try_except, bind.
      destruct (open_error env (gridfs_id r)) as [m|] eqn:Ho.
      - exists m. reflexivity.
      - destruct Hmiss as [Hm | Hm]; [congruence |]. rewrite Hm.
        eexists. reflexivity. }
    destruct Hrun as [why Hrun]. exists why.
    split; [exact Hrun |]. unfold respond. rewrite Hrun. reflexivity.
  - unfold preview_file, try_except, bind.
    rewrite get_file_by_code_find by assumption. rewrite upper_idem, Hr.
    reflexivity.
Qed.

Lemma missing_blob_is_404_witness :
  List.find (by_code (upper "00000000")) (files w_no_blob) =
    Some (stored_doc 5 101 102 hello Mongo.empty) /\
  (open_error Mongo.no_faults 0%N <> None \/ gridfs w_no_blob !! 0%N = None) /\
  preview_file Mongo.no_faults "00000000" w_no_blob =
    (Ok (PreviewOk "a.txt" 10 "text/plain" 0 0), w_no_blob).
Proof.
  assert (Hr : List.find (by_code (upper "00000000")) (files w_no_blob) =
               Some (stored_doc 5 101 102 hello Mongo.empty)) by reflexivity.
  assert (Hm : open_error Mongo.no_faults 0%N <> None \/
               gridfs w_no_blob !! 0%N = None) by (right; reflexivity).
  split; [exact Hr | split; [exact Hm |]].
  exact (proj2 (missing_blob_is_404 Mongo.no_faults "00000000" w_no_blob
                  (stored_doc 5 101 102 hello Mongo.empty) eq_refl Hr Hm)).
Defined.

(** ** What no operation of [main.py] and of the sweep undoes *)

Section HistoryFacts.

Lemma doc_le_refl (d : FileDoc) : doc_le d d.
Proof. unfold doc_le. repeat split; auto; lia. Qed.

Lemma doc_le_trans (a b c : FileDoc) : doc_le a b -> doc_le b c -> doc_le a c.
Proof.
  unfold doc_le.
  intros (H1 & H2 & H3 & H4 & H5 & H6 & H7 & H8 & H9 & H10)
         (K1 & K2 & K3 & K4 & K5 & K6 & K7 & K8 & K9 & K10).
  repeat split; try congruence; [lia | auto].
Qed.

Lemma doc_le_inc (d : FileDoc) : doc_le d (inc_download_count d).
Proof. unfold doc_le. simpl. repeat split; auto; lia. Qed.

Lemma doc_le_deactivate (d : FileDoc) : doc_le d (Mongo.set_is_active false d).
Proof. unfold doc_le. simpl. repeat split; auto; lia. Qed.

Lemma Forall2_doc_le_refl (l : list FileDoc) : Forall2 doc_le l l.
Proof. induction l; constructor; [apply doc_le_refl | assumption]. Qed.

Lemma history_refl (l : list FileDoc) : history l l.
Proof.
  exists l, []. split; [now rewrite app_nil_r | apply Forall2_doc_le_refl].
Qed.

Lemma history_app (l l2 : list FileDoc) : history l (l ++ l2).
Proof. exists l, l2. split; [reflexivity | apply Forall2_doc_le_refl]. Qed.

Lemma Forall2_doc_le_trans (a : list FileDoc) :
  forall b c, Forall2 doc_le a b -> Forall2 doc_le b c -> Forall2 doc_le a c.
Proof.
  induction a as [|x a IH]; intros b c Hab Hbc.
  - inversion Hab; subst. inversion Hbc; subst. constructor.
  - inversion Hab as [|? y ? b' Hxy Hab']; subst.
    inversion Hbc as [|? z ? c' Hyz Hbc']; subst.
    constructor; [eapply doc_le_trans; eassumption | eapply IH; eassumption].
Qed.

Lemma history_trans (a b c : list FileDoc) :
  history a b -> history b c -> history a c.
Proof.
  intros (b1 & b2 & -> & Hab) (c1 & c2 & -> & Hbc).
  apply Forall2_app_inv_l in Hbc as (c1a & c1b & Hb1 & Hb2 & ->).
  exists c1a, (c1b ++ c2). split; [now rewrite app_assoc |].
  eapply Forall2_doc_le_trans; eassumption.
Qed.

Lemma update_first_history (id : ObjectId) (f : FileDoc -> FileDoc)
    (l : list FileDoc) :
  (forall d, doc_le d (f d)) ->
  Forall2 doc_le l (fst (update_first id f l)).
Proof.
  intros Hf. induction l as [|d l IH]; simpl; [constructor |].
  destruct (_id d =? id)%N; simpl.
  - constructor; [apply Hf | apply Forall2_doc_le_refl].
  - destruct (update_first id f l) as [l' n]. simpl in *.
    constructor; [apply doc_le_refl | exact IH].
Qed.

Lemma history_update_first (id : ObjectId) (f : FileDoc -> FileDoc)
    (l : list FileDoc) :
  (forall d, doc_le d (f d)) -> history l (fst (update_first id f l)).
Proof.
  intros Hf. exists (fst (update_first id f l)), [].
  split; [now rewrite app_nil_r | now apply update_first_history].
Qed.

Variable env : Env.

Lemma get_file_by_code_state (code : string) (w : World) :
  snd (get_file_by_code env code w) = w.
Proof.
  unfold get_file_by_code, find_one, try_except, bind.
  destruct (find_error env); reflexivity.
Qed.

Lemma preview_file_state (code : string) (w : World) :
  snd (preview_file env code w) = w.
Proof.
  unfold preview_file, try_except, bind.
  pose proof (get_file_by_code_state (upper code) w) as Hs.
  destruct (get_file_by_code env (upper code) w) as [[[r|]|e] w']; simpl in Hs;
    subst w'; reflexivity.
Qed.

Lemma download_file_history (code : string) (w : World) :
  history (files w) (files (snd (download_file env code w))).
Proof.
  unfold download_file, try_except, bind.
  pose proof (get_file_by_code_state (upper code) w) as Hs.
  destruct (get_file_by_code env (upper code) w) as [[[r|]|e] w']; simpl in Hs;
    subst w'.
  - unfold download_file_from_mongodb, open_download_stream, try_except, bind.
    destruct (open_error env (gridfs_id r)); simpl; [apply history_refl |].
    destruct (gridfs w !! gridfs_id r); simpl; [| apply history_refl].
    unfold increment_download_count, update_one, try_except, bind,
      new_StreamingResponse.
    destruct (update_error env (_id r)); simpl.
    { destruct (latin1 _ && latin1 _); apply history_refl. }
    pose proof (history_update_first (_id r) inc_download_count (files w)
                  doc_le_inc) as Hh.
    destruct (update_first (_id r) inc_download_count (files w)) as [l n].
    simpl in *. destruct (latin1 _ && latin1 _); exact Hh.
  - simpl. apply history_refl.
  - destruct e; simpl; apply history_refl.
Qed.

Lemma upload_file_history (random_bytes : Z) (t_blob t_upload t_expiry : datetime)
    (file : UploadFile) (w : World) :
  history (files w)
    (files (snd (upload_file env random_bytes t_blob t_upload t_expiry file w))).
Proof.
  destruct (upload_file_outcome env random_bytes t_blob t_upload t_expiry file w)
    as [[Hf _] | [Hf _]]; rewrite Hf; [apply history_refl | apply history_app].
Qed.

Lemma cleanup_one_history (r : FileDoc) (n : Z) (w : World) :
  history (files w) (files (snd (cleanup_one env r n w))).
Proof.
  unfold cleanup_one, gridfs_delete, update_one, try_except, bind.
  destruct (delete_error env (gridfs_id r)); simpl; [apply history_refl |].
  destruct (gridfs w !! gridfs_id r); simpl; [| apply history_refl].
  destruct (update_error env (_id r)); simpl; [apply history_refl |].
  pose proof (history_update_first (_id r) (Mongo.set_is_active false) (files w)
                doc_le_deactivate) as Hh.
  destruct (update_first (_id r) (Mongo.set_is_active false) (files w)) as [l k].
  simpl in *. exact Hh.
Qed.

Lemma cleanup_loop_history (l : list FileDoc) :
  forall (n : Z) (w : World),
  history (files w) (files (snd (cleanup_loop env l n w))).
Proof.
  induction l as [|r l IH]; intros n w; [apply history_refl |].
  simpl. unfold bind.
  pose proof (cleanup_one_history r n w) as H1.
  destruct (cleanup_one_post env r n w) as (n1 & w1 & Hrun & _).
  rewrite Hrun in *. simpl in H1.
  eapply history_trans; [exact H1 | apply IH].
Qed.

Lemma cleanup_history (now : datetime) (w : World) :
  history (files w) (files (snd (cleanup_expired_files env now w))).
Proof.
  unfold cleanup_expired_files, find, try_except, bind.
  destruct (find_error env); simpl; [apply history_refl |].
  pose proof (cleanup_loop_history (List.filter (Mongo.expired now) (files w)) 0 w)
    as Hh.
  destruct (cleanup_loop_post env (List.filter (Mongo.expired now) (files w)) 0 w)
    as (n' & w' & Hrun & _).
  rewrite Hrun in *. exact Hh.
Qed.

End HistoryFacts.

(** X9.  Whatever fails, upload, download, preview and the sweep never
    remove a document, never change the fields written at its creation,
    never lower its count of downloads and never make an inactive
    document active again; new documents are appended after the old ones
    and preview changes nothing at all.  The relation is reflexive and
    transitive, so this holds for every sequence of these operations. *)
Theorem records_only_move_forward (env : Env) (w : World) :
  (forall random_bytes t_blob t_upload t_expiry file,
     history (files w)
       (files (snd (upload_file env random_bytes t_blob t_upload t_expiry
                      file w)))) /\
  (forall code, history (files w) (files (snd (download_file env code w)))) /\
  (forall code, snd (preview_file env code w) = w) /\
  (forall now,
     history (files w) (files (snd (cleanup_expired_files env now w)))) /\
  (forall l, history l l) /\
  (forall a b c, history a b -> history b c -> history a c).
Proof.
  split; [intros; apply upload_file_history |].
  split; [intros; apply download_file_history |].
  split; [intros; apply preview_file_state |].
  split; [intros; apply cleanup_history |].
  split; [apply history_refl | apply history_trans].
Qed.

(** ** What a sweep without failures achieves *)

Section SweepEffect.

Variable env : Env.

Hypothesis delete_ok : forall id, delete_error env id = None.
Hypothesis update_ok : forall id, update_error env id = None.

Lemma NoDup_map_inj_in {A B : Type} (f : A -> B) (l : list A) (x y : A) :
  NoDup (map f l) -> In x l -> In y l -> f x = f y -> x = y.
Proof.
  induction l as [|a l IH]; intros Hnd Hx Hy Hxy; [contradiction |].
  simpl in Hnd. apply NoDup_cons in Hnd as [Ha Hnd].
  destruct Hx as [-> | Hx], Hy as [-> | Hy].
  - reflexivity.
  - exfalso. apply Ha. apply list_elem_of_In. rewrite Hxy. now apply in_map.
  - exfalso. apply Ha. apply list_elem_of_In. rewrite <- Hxy. now apply in_map.
  - now apply IH.
Qed.

Lemma delete_all_none (l : list FileDoc) :
  forall (g : gmap ObjectId GridFile) (k : ObjectId),
  g !! k = None -> delete_all l g !! k = None.
Proof.
  induction l as [|r l IH]; intros g k Hk; [exact Hk |].
  simpl. apply IH.
  destruct (decide (gridfs_id r = k)) as [-> | Hne].
  - apply lookup_delete_eq.
  - now rewrite lookup_delete_ne.
Qed.

Lemma delete_all_in (l : list FileDoc) :
  forall (g : gmap ObjectId GridFile) (d : FileDoc),
  In d l -> delete_all l g !! gridfs_id d = None.
Proof.
  induction l as [|r l IH]; intros g d Hin; [contradiction |].
  simpl. destruct Hin as [-> | Hin].
  - apply delete_all_none, lookup_delete_eq.
  - now apply IH.
Qed.

Lemma delete_all_other (l : list FileDoc) :
  forall (g : gmap ObjectId GridFile) (k : ObjectId),
  ~ In k (map gridfs_id l) -> delete_all l g !! k = g !! k.
Proof.
  induction l as [|r l IH]; intros g k Hk; [reflexivity |].
  simpl in *. rewrite IH by (intros H; apply Hk; now right).
  apply lookup_delete_ne. intros H. apply Hk. now left.
Qed.

Lemma cleanup_one_effect (r : FileDoc) (n : Z) (w : World) :
  NoDup (map _id (files w)) ->
  is_Some (gridfs w !! gridfs_id r) ->
  cleanup_one env r n w =
  (Ok (n + 1),
   {| files := map (fun d => if (_id d =? _id r)%N
                             then Mongo.set_is_active false d else d) (files w);
      gridfs := delete (gridfs_id r) (gridfs w);
      next_oid := next_oid w |}).
Proof.
  intros Hnd [blob Hblob].
  unfold cleanup_one, gridfs_delete, update_one, try_except, bind.
  rewrite delete_ok, Hblob, update_ok. simpl.
  pose proof (update_first_unique (_id r) (Mongo.set_is_active false) (files w)
                (fun d => eq_refl) Hnd) as Hu.
  destruct (update_first (_id r) (Mongo.set_is_active false) (files w)) as [l k].
  simpl in Hu. subst l. reflexivity.
Qed.

Lemma cleanup_loop_effect (l : list FileDoc) :
  forall (n : Z) (w : World),
  NoDup (map _id (files w)) ->
  NoDup (map gridfs_id l) ->
  Forall (fun d => is_Some (gridfs w !! gridfs_id d)) l ->
  cleanup_loop env l n w =
  (Ok (n + Z.of_nat (length l)),
   {| files := map (fun d => if among l d
                             then Mongo.set_is_active false d else d) (files w);
      gridfs := delete_all l (gridfs w);
      next_oid := next_oid w |}).
Proof.
  induction l as [|r l IH]; intros n w Hnd Hg Hblobs.
  - simpl. unfold ret. rewrite Z.add_0_r, map_id. destruct w; reflexivity.
  - simpl in Hg. apply NoDup_cons in Hg as [Hr Hg].
    apply Forall_cons in Hblobs as [Hb Hblobs].
    simpl cleanup_loop. unfold bind.
    rewrite (cleanup_one_effect r n w Hnd Hb).
    rewrite IH; cbn [files gridfs next_oid].
    + f_equal; [f_equal; cbn [length]; lia |]. f_equal.
      rewrite map_map. apply map_ext. intros d.
      unfold among. cbn [existsb].
      rewrite (N.eqb_sym (_id r) (_id d)).
      destruct (_id d =? _id r)%N; simpl; [| reflexivity].
      match goal with |- (if ?b then _ else _) = _ => destruct b end; reflexivity.
    + rewrite map_map. erewrite map_ext; [exact Hnd |].
      intros d. destruct (_id d =? _id r)%N; reflexivity.
    + exact Hg.
    + apply Forall_forall. intros d Hd.
      rewrite Forall_forall in Hblobs. specialize (Hblobs d Hd).
      rewrite lookup_delete_ne; [exact Hblobs |].
      intros Heq. apply Hr. rewrite Heq. apply list_elem_of_In.
      apply in_map. now apply list_elem_of_In.
Qed.

Lemma among_expired (now : datetime) (l : list FileDoc) (d : FileDoc) :
  NoDup (map _id l) -> In d l ->
  among (List.filter (Mongo.expired now) l) d = Mongo.expired now d.
Proof.
  intros Hnd Hd. unfold among.
  destruct (Mongo.expired now d) eqn:He.
  - apply existsb_exists. exists d. split; [| apply N.eqb_refl].
    apply filter_In. auto.
  - destruct (existsb _ _) eqn:Hex; [| reflexivity].
    apply existsb_exists in Hex as (x & Hx & Hid).
    apply filter_In in Hx as [Hx Hxe]. apply N.eqb_eq in Hid.
    rewrite (NoDup_map_inj_in _id l x d Hnd Hx Hd Hid) in Hxe. congruence.
Qed.

Lemma mark_expired_none_left (now : datetime) (l : list FileDoc) :
  List.filter (Mongo.expired now) (map (mark_expired now) l) = [].
Proof.
  induction l as [|d l IH]; [reflexivity |]. simpl. unfold mark_expired at 1.
  destruct (Mongo.expired now d) eqn:He.
  - unfold Mongo.expired at 1. simpl. rewrite andb_false_r. exact IH.
  - rewrite He. exact IH.
Qed.

End SweepEffect.

(** X10.  When no driver call fails, the documents have distinct [_id]s,
    and the expired active documents have distinct GridFS files that are
    all in the bucket, the sweep returns the number of expired active
    documents, marks exactly those inactive and deletes exactly their
    GridFS files; afterwards no document is both active and expired at
    that time, and [get_file_by_code] returns no expired document. *)
Theorem mongo_sweep_effect (env : Env) (now : datetime) (w : World) :
  find_error env = None ->
  (forall id, delete_error env id = None) ->
  (forall id, update_error env id = None) ->
  NoDup (map _id (files w)) ->
  NoDup (map gridfs_id (List.filter (Mongo.expired now) (files w))) ->
  Forall (fun d => is_Some (gridfs w !! gridfs_id d))
    (List.filter (Mongo.expired now) (files w)) ->
  let run := cleanup_expired_files env now w in
  fst run = Ok (Z.of_nat (length (List.filter (Mongo.expired now) (files w)))) /\
  files (snd run) = map (mark_expired now) (files w) /\
  (forall d, In d (List.filter (Mongo.expired now) (files w)) ->
     gridfs (snd run) !! gridfs_id d = None) /\
  (forall k, ~ In k (map gridfs_id (List.filter (Mongo.expired now) (files w))) ->
     gridfs (snd run) !! k = gridfs w !! k) /\
  List.filter (Mongo.expired now) (files (snd run)) = [] /\
  (forall code, exists found,
     get_file_by_code env code (snd run) = (Ok found, snd run) /\
     forall r, found = Some r -> Mongo.expired now r = false).
Proof.
  intros Hfind Hdel Hupd Hnd Hgids Hblobs run. subst run.
  unfold cleanup_expired_files, find, try_except, bind. rewrite Hfind.
  rewrite (cleanup_loop_effect env Hdel Hupd _ 0 w Hnd Hgids Hblobs).
  cbn [fst snd files gridfs].
  assert (Hfiles :
    map (fun d => if among (List.filter (Mongo.expired now) (files w)) d
                  then Mongo.set_is_active false d else d) (files w) =
    map (mark_expired now) (files w)).
  { apply map_ext_in. intros d Hd. unfold mark_expired.
    now rewrite among_expired. }
  rewrite Hfiles.
  split; [reflexivity |]. split; [reflexivity |].
  split; [intros d Hd; now apply delete_all_in |].
  split; [intros k Hk; now apply delete_all_other |].
  split; [apply mark_expired_none_left |].
  intros code. rewrite get_file_by_code_find by assumption. cbn [files].
  eexists. split; [reflexivity |].
  intros r Hr. apply find_some in Hr as [Hin _].
  destruct (Mongo.expired now r) eqn:He; [| reflexivity].
  assert (Hin' : In r (List.filter (Mongo.expired now)
                         (map (mark_expired now) (files w)))).
  { apply filter_In. auto. }
  rewrite mark_expired_none_left in Hin'. contradiction.
Qed.

Lemma mongo_sweep_effect_witness :
  NoDup (map _id (files w_hello)) /\
  fst (cleanup_expired_files Mongo.no_faults 999999999999 w_hello) = Ok 1 /\
  files (snd (cleanup_expired_files Mongo.no_faults 999999999999 w_hello)) =
    map (mark_expired 999999999999) (files w_hello).
Proof.
  assert (Hnd : NoDup (map _id (files w_hello))).
  { vm_compute. apply NoDup_singleton. }
  assert (Hg : NoDup (map gridfs_id
                        (List.filter (Mongo.expired 999999999999) (files w_hello)))).
  { vm_compute. apply NoDup_singleton. }
  assert (Hb : Forall (fun d => is_Some (gridfs w_hello !! gridfs_id d))
                 (List.filter (Mongo.expired 999999999999) (files w_hello))).
  { vm_compute. constructor; [| constructor]. eexists. reflexivity. }
  split; [exact Hnd |].
  destruct (mongo_sweep_effect Mongo.no_faults 999999999999 w_hello eq_refl
              (fun _ => eq_refl) (fun _ => eq_refl) Hnd Hg Hb)
    as (H1 & H2 & _).
  split; [exact H1 | exact H2].
Defined.

(** ** Upload followed by preview *)

Section InspectFacts.

Lemma generated_code_shape (random_bytes : Z) :
  String.length (generate_download_code random_bytes 8) = 8%nat /\
  all_in hex_upper (generate_download_code random_bytes 8) = true.
Proof.
  pose proof (generate_download_code_chars random_bytes 8 ltac:(lia)) as Hc.
  split.
  - rewrite <- length_chars, Hc, length_take, length_map, length_hex32.
    reflexivity.
  - unfold all_in. rewrite Hc. apply forallb_forall. intros c Hin.
    assert (Hf : Forall (fun c => in_alphabet hex_upper c = true)
                   (take (Z.to_nat (Z.min 8 32))
                      (map upper_ascii (Uuid.hex32 (Uuid.uuid4 random_bytes))))).
    { apply Forall_take, Forall_map.
      eapply Forall_impl; [apply hex32_lower |]. apply lower_to_upper. }
    rewrite Forall_forall in Hf. apply Hf. now apply list_elem_of_In.
Qed.

Lemma lookup_after_upload (random_bytes : Z) (t_upload t_expiry : datetime)
    (file : UploadFile) (w : World) :
  ~ In (generate_download_code random_bytes 8) (active_codes w) ->
  List.find (by_code (generate_download_code random_bytes 8))
    (files w ++ [stored_doc random_bytes t_upload t_expiry file w]) =
  Some (stored_doc random_bytes t_upload t_expiry file w).
Proof.
  intros Hfresh.
  rewrite find_app_skip by (now apply find_by_code_absent).
  unfold List.find, by_code.
  change (download_code (stored_doc random_bytes t_upload t_expiry file w))
    with (upper (generate_download_code random_bytes 8)).
  rewrite upper_generated, String.eqb_refl. reflexivity.
Qed.

End InspectFacts.

(** X11.  For a file within the size cap, with the GridFS write, the
    insert and the query succeeding, and a generated code that no active
    document carries yet, the upload returns a code of 8 characters among
    [0-9A-F], and a preview with that code right after it shows the name,
    the size and the type given at the upload, the time of the upload cut
    to the millisecond and 0 downloads, and changes nothing. *)
Theorem store_then_inspect
    (env : Env) (random_bytes : Z) (t_blob t_upload t_expiry : datetime)
    (file : UploadFile) (w : World) :
  validate_file_size (size file) default_max_size = true ->
  upload_error env = None ->
  insert_error env = None ->
  find_error env = None ->
  ~ In (generate_download_code random_bytes 8) (active_codes w) ->
  exists code w1,
    upload_file env random_bytes t_blob t_upload t_expiry file w =
      (Ok (UploadOk code (filename file) (size file)), w1) /\
    String.length code = 8%nat /\ all_in hex_upper code = true /\
    preview_file env code w1 =
      (Ok (PreviewOk (filename file) (size file) (content_type file)
             (bson_date t_upload) 0), w1).
Proof.
  intros Hsize Hblob Hins Hfind Hfresh.
  destruct (generated_code_shape random_bytes) as [Hlen Hhex].
  eexists. eexists. split; [now apply upload_file_ok |].
  split; [exact Hlen |]. split; [exact Hhex |].
  unfold preview_file, try_except, bind.
  rewrite get_file_by_code_find by assumption. cbn [files].
  rewrite upper_idem, upper_generated, lookup_after_upload by assumption.
  reflexivity.
Qed.

Lemma store_then_inspect_witness :
  validate_file_size (size hello) default_max_size = true /\
  ~ In (generate_download_code 5 8) (active_codes Mongo.empty) /\
  exists code w1,
    upload_file Mongo.no_faults 5 100 101 102 hello Mongo.empty =
      (Ok (UploadOk code (filename hello) (size hello)), w1) /\
    String.length code = 8%nat /\ all_in hex_upper code = true /\
    preview_file Mongo.no_faults code w1 =
      (Ok (PreviewOk (filename hello) (size hello) (content_type hello)
             0 0), w1).
Proof.
  assert (Hfresh : ~ In (generate_download_code 5 8) (active_codes Mongo.empty)).
  { intros []. }
  split; [reflexivity | split; [exact Hfresh |]].
  exact (store_then_inspect Mongo.no_faults 5 100 101 102 hello Mongo.empty
           eq_refl eq_refl eq_refl eq_refl Hfresh).
Defined.

(** ** Lookups of the Supabase client *)

Section SupabaseLookupFacts.

Variable env : Supabase.Env.

Lemma supabase_get_cases (code : string) (w : Supabase.World) :
  exists found,
    Supabase.get_file_by_code env code w = (Ok found, w) /\
    forall r, found = Some r ->
      In r (Supabase.rows w) /\ Supabase.is_active r = true /\
      Supabase.download_code r = upper code.
Proof.
  unfold Supabase.get_file_by_code, Supabase.query_first, try_except.
  destruct (Supabase.query_error env).
  - exists None. split; [reflexivity | discriminate].
  - eexists. split; [reflexivity |]. intros r Hr.
    apply find_some in Hr as [Hin Hq]. unfold Supabase.by_code in Hq.
    apply andb_true_iff in Hq as [Hc Ha]. apply String.eqb_eq in Hc. auto.
Qed.

End SupabaseLookupFacts.

(** X17.  After a sweep of the Supabase client whose query and commit
    succeed, [get_file_by_code] returns, for any code, no row that is
    expired at the time of the sweep: a code whose row has expired is
    reported as not found. *)
Theorem supabase_sweep_then_lookup
    (env : Supabase.Env) (now : datetime) (code : string) (w : Supabase.World) :
  Supabase.query_error env = None ->
  Supabase.commit_error env = None ->
  let w1 := snd (Supabase.cleanup_expired_files env now w) in
  exists found,
    Supabase.get_file_by_code env code w1 = (Ok found, w1) /\
    forall r, found = Some r ->
      match Supabase.expiry_date r with
      | Some e => now < e
      | None => True
      end.
Proof.
  intros Hq Hc w1.
  assert (Hnone : List.filter (Supabase.expired now) (Supabase.rows w1) = []).
  { subst w1.
    unfold Supabase.cleanup_expired_files, Supabase.query_all,
      Supabase.update_commit, try_except, bind.
    rewrite Hq, Hc.
    destruct (supabase_loop_rows env
                (List.filter (Supabase.expired now) (Supabase.rows w)) 0 w)
      as (w' & Hrun & Hr & Hs).
    rewrite Hrun. simpl. rewrite Hr. apply expired_after_mark. }
  destruct (supabase_get_cases env code w1) as (found & Hget & Hfound).
  exists found. split; [exact Hget |].
  intros r Hr. destruct (Hfound r Hr) as (Hin & Ha & _).
  destruct (Supabase.expiry_date r) as [e|] eqn:He; [| exact I].
  destruct (Z.leb_spec e now) as [Hle | Hlt]; [| exact Hlt].
  exfalso.
  assert (Hin' : In r (List.filter (Supabase.expired now) (Supabase.rows w1))).
  { apply filter_In. split; [exact Hin |].
    unfold Supabase.expired. rewrite He, Ha.
    apply andb_true_iff. split; [now apply Z.leb_le | reflexivity]. }
  rewrite Hnone in Hin'. contradiction.
Qed.

Lemma supabase_sweep_then_lookup_witness :
  Supabase.query_error Supabase.no_faults = None /\
  Supabase.commit_error Supabase.no_faults = None /\
  exists found,
    Supabase.get_file_by_code Supabase.no_faults "abcd1234"
      (snd (Supabase.cleanup_expired_files Supabase.no_faults 300 sw_old)) =
      (Ok found,
       snd (Supabase.cleanup_expired_files Supabase.no_faults 300 sw_old)) /\
    forall r, found = Some r ->
      match Supabase.expiry_date r with
      | Some e => 300 < e
      | None => True
      end.
Proof.
  split; [reflexivity | split; [reflexivity |]].
  exact (supabase_sweep_then_lookup Supabase.no_faults 300 "abcd1234" sw_old
           eq_refl eq_refl).
Defined.

(** X18.  [deactivate_file] of the Supabase client: when the commit
    succeeds it returns [True], every row with the id of the record is
    inactive afterwards, rows with another id are untouched, and
    [get_file_by_code] returns that id for no code; when the commit fails
    it returns [False] and the table is unchanged. *)
Theorem deactivate_file_effect
    (env : Supabase.Env) (r : Supabase.FileRecord) (w : Supabase.World) :
  let run := Supabase.deactivate_file env r w in
  (Supabase.commit_error env = None ->
   fst run = Ok true /\
   (forall x, In x (Supabase.rows (snd run)) ->
      Supabase.id x = Supabase.id r -> Supabase.is_active x = false) /\
   (forall x, In x (Supabase.rows w) -> Supabase.id x <> Supabase.id r ->
      In x (Supabase.rows (snd run))) /\
   (forall code found,
      Supabase.get_file_by_code env code (snd run) = (Ok (Some found), snd run) ->
      Supabase.id found <> Supabase.id r)) /\
  (Supabase.commit_error env <> None -> run = (Ok false, w)).
Proof.
  cbn zeta. unfold Supabase.deactivate_file, Supabase.update_commit,
    try_except, bind.
  destruct (Supabase.commit_error env) as [m|] eqn:Hc.
  - split; [discriminate | reflexivity].
  - split; [| congruence]. intros _. simpl.
    assert (Hoff : forall x,
              In x (map (fun r0 => if String.eqb (Supabase.id r0) (Supabase.id r)
                                   then Supabase.set_is_active false r0 else r0)
                      (Supabase.rows w)) ->
              Supabase.id x = Supabase.id r -> Supabase.is_active x = false).
    { intros x Hx Hid. apply in_map_iff in Hx as (y & Hy & _).
      destruct (String.eqb_spec (Supabase.id y) (Supabase.id r)) as [_ | Hne].
      - subst x. reflexivity.
      - subst x. contradiction. }
    split; [reflexivity |]. split; [exact Hoff |]. split.
    + intros x Hx Hne. apply in_map_iff. exists x. split; [| exact Hx].
      destruct (String.eqb_spec (Supabase.id x) (Supabase.id r));
        [contradiction | reflexivity].
    + intros code found Hget Hid.
      match type of Hget with
      | Supabase.get_file_by_code env code ?w1 = _ =>
          destruct (supabase_get_cases env code w1) as (o & Hget' & Ho)
      end.
      rewrite Hget' in Hget. injection Hget as ->.
      destruct (Ho found eq_refl) as (Hin & Ha & _).
      simpl in Hin. rewrite (Hoff found Hin Hid) in Ha. discriminate Ha.
Qed.

(** X19.  [get_file_by_code] of both database clients compares the stored
    code with the uppercased code of the request: what it returns is an
    active record whose stored code is that uppercase form, so a record
    stored under a code that holds a lowercase letter is never returned,
    for any request.  The Supabase [create_file_record] stores the code as
    it is given. *)
Theorem lookup_returns_uppercase_codes_only
    (menv : Mongo.Env) (senv : Supabase.Env) (code : string)
    (mw : Mongo.World) (sw : Supabase.World) :
  (forall r w', Mongo.get_file_by_code menv code mw = (Ok (Some r), w') ->
     Mongo.is_active r = true /\ Mongo.download_code r = upper code /\
     upper (Mongo.download_code r) = Mongo.download_code r) /\
  (forall r w', Supabase.get_file_by_code senv code sw = (Ok (Some r), w') ->
     Supabase.is_active r = true /\ Supabase.download_code r = upper code /\
     upper (Supabase.download_code r) = Supabase.download_code r) /\
  (forall uuid_bytes t1 t2 file path days r w',
     Supabase.create_file_record senv uuid_bytes t1 t2 code file path days sw =
       (Ok r, w') ->
     Supabase.download_code r = code).
Proof.
  split; [| split].
  - intros r w'. unfold Mongo.get_file_by_code, find_one, try_except, bind.
    destruct (find_error menv); [discriminate |].
    unfold ret. intros H. injection H as Hf _.
    apply find_some in Hf as [_ Hq]. unfold Mongo.by_code in Hq.
    apply andb_true_iff in Hq as [Hc Ha]. apply String.eqb_eq in Hc.
    rewrite Hc, upper_idem. auto.
  - intros r w' H.
    destruct (supabase_get_cases senv code sw) as (o & Hget & Ho).
    rewrite Hget in H. injection H as -> _.
    destruct (Ho r eq_refl) as (_ & Ha & Hc).
    rewrite Hc, upper_idem. auto.
  - intros uuid_bytes t1 t2 file path days r w'.
    destruct (supabase_create_file_record_outcome senv uuid_bytes t1 t2 code
                file path days sw) as [(x & -> & _) | (why & ->)];
      intros H; [| discriminate].
    injection H as <- _. reflexivity.
Qed.

(** ** The utility functions of the Supabase client *)

Section ExtensionFacts.

Lemma split_two_pieces (sep : ascii) (a b : list ascii) :
  exists p q rest, Supabase.split sep (a ++ sep :: b) = p :: q :: rest.
Proof.
  induction a as [|c a IH]; simpl.
  - rewrite Ascii.eqb_refl.
    destruct (Supabase.split sep b) as [|q rest] eqn:Hs.
    + destruct b as [|x b]; simpl in Hs; [discriminate |].
      destruct (Ascii.eqb x sep); [discriminate |].
      destruct (Supabase.split sep b); discriminate.
    + eauto.
  - destruct IH as (p & q & rest & ->).
    destruct (Ascii.eqb c sep); eauto.
Qed.

Lemma last_split_app (sep : ascii) (a b : list ascii) :
  List.last (Supabase.split sep (a ++ sep :: b)) [] =
  List.last (Supabase.split sep b) [].
Proof.
  induction a as [|c a IH]; simpl.
  - rewrite Ascii.eqb_refl.
    destruct (split_two_pieces sep [] b) as (p & q & rest & Hs).
    simpl in Hs. rewrite Ascii.eqb_refl in Hs. injection Hs as _ Hs.
    rewrite Hs. reflexivity.
  - destruct (split_two_pieces sep a b) as (p & q & rest & Hs).
    rewrite Hs in *. destruct (Ascii.eqb c sep); exact IH.
Qed.

Lemma split_no_sep (sep : ascii) (l : list ascii) :
  existsb (Ascii.eqb sep) l = false -> Supabase.split sep l = [l].
Proof.
  induction l as [|c l IH]; simpl; [reflexivity |].
  intros H. apply orb_false_iff in H as [Hc Hl].
  rewrite Ascii.eqb_sym, Hc, IH by assumption. reflexivity.
Qed.

Lemma split_pieces_clean (sep : ascii) (l : list ascii) :
  Forall (fun piece => existsb (Ascii.eqb sep) piece = false)
    (Supabase.split sep l).
Proof.
  induction l as [|c l IH]; simpl.
  - constructor; [reflexivity | constructor].
  - destruct (Ascii.eqb c sep) eqn:Hc.
    + constructor; [reflexivity | exact IH].
    + destruct (Supabase.split sep l) as [|piece pieces].
      * constructor; [| constructor]. simpl.
        now rewrite Ascii.eqb_sym, Hc.
      * inversion IH as [|? ? Hp Hps]; subst.
        constructor; [| exact Hps]. simpl.
        now rewrite Ascii.eqb_sym, Hc, Hp.
Qed.

Lemma last_clean {A : Type} (P : A -> Prop) (l : list A) (d : A) :
  P d -> Forall P l -> P (List.last l d).
Proof.
  intros Hd. induction 1 as [|x l Hx Hl IH]; [exact Hd |].
  simpl. destruct l; [exact Hx | exact IH].
Qed.

Lemma lower_ascii_idem (c : ascii) :
  Supabase.lower_ascii (Supabase.lower_ascii c) = Supabase.lower_ascii c.
Proof. destruct c as [[] [] [] [] [] [] [] []]; reflexivity. Qed.

Lemma lower_ascii_dot (c : ascii) :
  Ascii.eqb "." (Supabase.lower_ascii c) = Ascii.eqb "." c.
Proof. destruct c as [[] [] [] [] [] [] [] []]; reflexivity. Qed.

Lemma lower_idem (s : string) : Supabase.lower (Supabase.lower s) = Supabase.lower s.
Proof.
  unfold Supabase.lower. rewrite chars_str, map_map. f_equal.
  apply map_ext. intros c. apply lower_ascii_idem.
Qed.

Lemma contains_dot_lower (s : string) :
  Supabase.contains "." (Supabase.lower s) = Supabase.contains "." s.
Proof.
  unfold Supabase.contains, Supabase.lower. rewrite chars_str.
  induction (chars s) as [|c l IH]; [reflexivity |].
  cbn [map existsb]. now rewrite lower_ascii_dot, IH.
Qed.

End ExtensionFacts.

(** X20.  [get_file_extension]: for a name that ends in a dot followed by
    a piece without a dot, the result is that piece in lowercase, whatever
    stands before the dot (so only the last of several extensions counts,
    a name that starts with a dot gives the rest of the name, and a name
    that ends in a dot gives the empty string); a name without a dot gives
    the empty string; and the result never holds a dot or an uppercase
    ASCII letter. *)
Theorem get_file_extension_last_piece (stem ext : string) :
  Supabase.contains "." ext = false ->
  Supabase.get_file_extension (stem ++ "." ++ ext) = Supabase.lower ext /\
  Supabase.get_file_extension ext = EmptyString /\
  (forall filename,
     Supabase.contains "." (Supabase.get_file_extension filename) = false /\
     Supabase.lower (Supabase.get_file_extension filename) =
       Supabase.get_file_extension filename).
Proof.
  intros Hext. split; [| split].
  - unfold Supabase.get_file_extension.
    assert (Hdot : Supabase.contains "." (stem ++ "." ++ ext) = true).
    { unfold Supabase.contains. rewrite chars_append. apply existsb_exists.
      exists "."%char. split; [| reflexivity].
      apply in_or_app. right. now left. }
    rewrite Hdot, chars_append.
    change (chars ("." ++ ext)) with ("."%char :: chars ext).
    rewrite last_split_app, split_no_sep by exact Hext.
    simpl. now rewrite str_chars.
  - unfold Supabase.get_file_extension. now rewrite Hext.
  - intros filename. unfold Supabase.get_file_extension.
    destruct (Supabase.contains "." filename); [| split; reflexivity].
    split; [| apply lower_idem].
    rewrite contains_dot_lower. unfold Supabase.contains. rewrite chars_str.
    apply (last_clean (fun piece => existsb (Ascii.eqb ".") piece = false));
      [reflexivity | apply split_pieces_clean].
Qed.

Lemma get_file_extension_last_piece_witness :
  Supabase.contains "." "GZ" = false /\
  Supabase.get_file_extension ("archive.tar" ++ "." ++ "GZ") = "gz"%string.
Proof.
  split; [reflexivity |].
  exact (proj1 (get_file_extension_last_piece "archive.tar" "GZ" eq_refl)).
Defined.

Section MimeFacts.

Lemma startswith_prefix (prefix rest : string) :
  Supabase.startswith (prefix ++ rest) prefix = true.
Proof.
  unfold Supabase.startswith. apply String.eqb_eq.
  induction prefix as [|c p IH]; simpl.
  - destruct rest; reflexivity.
  - now rewrite IH.
Qed.

Lemma startswith_sound (s prefix : string) :
  Supabase.startswith s prefix = true ->
  exists rest, s = (prefix ++ rest)%string.
Proof.
  unfold Supabase.startswith. intros H. apply String.eqb_eq in H.
  revert s H. induction prefix as [|c p IH]; intros s H.
  - exists s. reflexivity.
  - destruct s as [|c' s]; simpl in H; [discriminate |].
    injection H as -> H. destruct (IH s H) as [rest ->].
    exists rest. reflexivity.
Qed.

End MimeFacts.

(** X21.  [is_image_file] and [is_text_file]: for the empty string each
    returns the empty string itself, which counts as false; otherwise
    each returns a boolean.  A type counts as an image exactly when it
    starts with [image/], and as text exactly when it starts with [text/],
    [application/json] or [application/xml], parameters and longer subtype
    names included; no type counts as both. *)
Theorem mime_type_classes (mime_type : string) :
  Supabase.is_image_file EmptyString = Supabase.Str EmptyString /\
  Supabase.is_text_file EmptyString = Supabase.Str EmptyString /\
  (Supabase.truthy (Supabase.is_image_file mime_type) = true <->
   exists rest, mime_type = ("image/" ++ rest)%string) /\
  (Supabase.truthy (Supabase.is_text_file mime_type) = true <->
   exists rest, mime_type = ("text/" ++ rest)%string \/
                mime_type = ("application/json" ++ rest)%string \/
                mime_type = ("application/xml" ++ rest)%string) /\
  Supabase.truthy (Supabase.is_image_file mime_type) &&
    Supabase.truthy (Supabase.is_text_file mime_type) = false.
Proof.
  split; [reflexivity |]. split; [reflexivity |].
  assert (Himg : Supabase.truthy (Supabase.is_image_file mime_type) =
                 Supabase.startswith mime_type "image/").
  { unfold Supabase.is_image_file.
    destruct mime_type as [|c m]; reflexivity. }
  assert (Htxt : Supabase.truthy (Supabase.is_text_file mime_type) =
                 Supabase.startswith mime_type "text/" ||
                 (Supabase.startswith mime_type "application/json" ||
                  Supabase.startswith mime_type "application/xml")).
  { unfold Supabase.is_text_file.
    destruct mime_type as [|c m]; [reflexivity |].
    cbn [String.eqb Supabase.truthy existsb]. now rewrite orb_false_r. }
  split; [| split].
  - rewrite Himg. split.
    + apply startswith_sound.
    + intros [rest ->]. apply startswith_prefix.
  - rewrite Htxt. split.
    + intros H. apply orb_true_iff in H as [H | H];
        [| apply orb_true_iff in H as [H | H]];
        apply startswith_sound in H as [rest ->]; exists rest; auto.
    + intros [rest [-> | [-> | ->]]]; rewrite startswith_prefix;
        [reflexivity | apply orb_true_r | rewrite !orb_true_r; reflexivity].
  - rewrite Himg, Htxt. unfold Supabase.startswith.
    destruct mime_type as [|c m]; [reflexivity |].
    cbn [String.length String.substring String.eqb].
    destruct (Ascii.eqb_spec c "i") as [-> | Hne]; [| reflexivity].
    cbn. apply andb_false_r.
Qed.

(** ** The dashboard on the synchronous client *)

Section DashboardFacts.

Variable env : Env.

Lemma upload_section_ok (random_bytes : Z) (t_blob t_upload t_expiry : datetime)
    (file : MongoSync.UploadedFile) (w : World) :
  validate_file_size (Z.of_nat (length (MongoSync.getvalue file)))
    default_max_size = true ->
  upload_error env = None ->
  insert_error env = None ->
  Streamlit.upload_section env random_bytes t_blob t_upload t_expiry file w =
  (Ok (Streamlit.Uploaded (generate_download_code random_bytes 8)
         (MongoSync.name file) (Z.of_nat (length (MongoSync.getvalue file)))),
   {| files := files w ++ [ui_doc random_bytes t_upload t_expiry file w];
      gridfs := <[next_oid w := ui_blob random_bytes t_blob file]> (gridfs w);
      next_oid := N.succ (N.succ (next_oid w)) |}).
Proof.
  intros Hsize Hblob Hins.
  unfold Streamlit.upload_section, MongoSync.upload_file_to_mongodb_sync,
    MongoSync.create_file_record_sync, upload_from_stream, insert_one,
    new_ObjectId.
  rewrite Hsize, Hblob, Hins. reflexivity.
Qed.

Lemma ui_lookup_after_upload (random_bytes : Z) (t_upload t_expiry : datetime)
    (file : MongoSync.UploadedFile) (w : World) :
  ~ In (generate_download_code random_bytes 8) (active_codes w) ->
  List.find (by_code (generate_download_code random_bytes 8))
    (files w ++ [ui_doc random_bytes t_upload t_expiry file w]) =
  Some (ui_doc random_bytes t_upload t_expiry file w).
Proof.
  intros Hfresh.
  rewrite find_app_skip by (now apply find_by_code_absent).
  unfold List.find, by_code.
  change (download_code (ui_doc random_bytes t_upload t_expiry file w))
    with (upper (generate_download_code random_bytes 8)).
  rewrite upper_generated, String.eqb_refl. reflexivity.
Qed.

Lemma increment_sync_returns (id : ObjectId) (w : World) :
  exists b w', MongoSync.increment_download_count_sync env id w = (Ok b, w').
Proof.
  unfold MongoSync.increment_download_count_sync, update_one, try_except, bind.
  destruct (update_error env id); simpl; [eauto |].
  destruct (update_first id inc_download_count (files w)). simpl. eauto.
Qed.

Lemma length_gate (s : string) :
  String.length (upper s) = String.length s /\
  (String.eqb (upper s) EmptyString = String.eqb s EmptyString).
Proof.
  split; [apply length_upper |].
  destruct s as [|c s]; [reflexivity |].
  unfold upper. simpl. reflexivity.
Qed.

End DashboardFacts.

(** X22.  An upload through the dashboard records as [file_size] the
    length of the bytes it stores: with the bytes within the size cap and
    the GridFS write and the insert succeeding, the new document points to
    a GridFS file that holds exactly the bytes of the upload, and its
    [file_size], like the [original_size] of the GridFS file, is their
    length. *)
Theorem dashboard_upload_records_real_size
    (env : Env) (random_bytes : Z) (t_blob t_upload t_expiry : datetime)
    (file : MongoSync.UploadedFile) (w : World) :
  validate_file_size (Z.of_nat (length (MongoSync.getvalue file)))
    default_max_size = true ->
  upload_error env = None ->
  insert_error env = None ->
  let run := Streamlit.upload_section env random_bytes t_blob t_upload
               t_expiry file w in
  exists code doc blob,
    fst run = Ok (Streamlit.Uploaded code (MongoSync.name file)
                    (file_size doc)) /\
    files (snd run) = files w ++ [doc] /\
    download_code doc = code /\
    gridfs (snd run) !! gridfs_id doc = Some blob /\
    grid_data blob = MongoSync.getvalue file /\
    file_size doc = Z.of_nat (length (grid_data blob)) /\
    original_size (grid_metadata blob) = file_size doc.
Proof.
  intros Hsize Hblob Hins run. subst run.
  rewrite (upload_section_ok env random_bytes t_blob t_upload t_expiry file w)
    by assumption.
  exists (generate_download_code random_bytes 8),
    (ui_doc random_bytes t_upload t_expiry file w),
    (ui_blob random_bytes t_blob file).
  cbn [fst snd files gridfs].
  split; [reflexivity |]. split; [reflexivity |].
  split; [apply upper_generated |].
  split; [apply lookup_insert_eq |]. repeat split.
Qed.

Lemma dashboard_upload_records_real_size_witness :
  validate_file_size (Z.of_nat (length (MongoSync.getvalue hello_ui)))
    default_max_size = true /\
  exists code doc blob,
    fst (Streamlit.upload_section Mongo.no_faults 5 100 101 102 hello_ui
           Mongo.empty) =
      Ok (Streamlit.Uploaded code (MongoSync.name hello_ui) (file_size doc)) /\
    files (snd (Streamlit.upload_section Mongo.no_faults 5 100 101 102 hello_ui
                  Mongo.empty)) = files Mongo.empty ++ [doc] /\
    download_code doc = code /\
    gridfs (snd (Streamlit.upload_section Mongo.no_faults 5 100 101 102
                   hello_ui Mongo.empty)) !! gridfs_id doc = Some blob /\
    grid_data blob = MongoSync.getvalue hello_ui /\
    file_size doc = Z.of_nat (length (grid_data blob)) /\
    original_size (grid_metadata blob) = file_size doc.
Proof.
  split; [reflexivity |].
  exact (dashboard_upload_records_real_size Mongo.no_faults 5 100 101 102
           hello_ui Mongo.empty eq_refl eq_refl eq_refl).
Defined.

(** X23.  In the dashboard, for bytes within the size cap, with the
    GridFS write, the insert, the query and the GridFS read succeeding and
    a generated code that no active document carries yet, the upload shows
    a code, and typing that code into the download tab right after it
    offers the very bytes, the name and the type of the upload and
    displays 1 download. *)
Theorem dashboard_store_then_fetch
    (env : Env) (random_bytes : Z) (t_blob t_upload t_expiry : datetime)
    (file : MongoSync.UploadedFile) (w : World) :
  validate_file_size (Z.of_nat (length (MongoSync.getvalue file)))
    default_max_size = true ->
  upload_error env = None ->
  insert_error env = None ->
  find_error env = None ->
  open_error env (next_oid w) = None ->
  ~ In (generate_download_code random_bytes 8) (active_codes w) ->
  exists code w1,
    Streamlit.upload_section env random_bytes t_blob t_upload t_expiry file w =
      (Ok (Streamlit.Uploaded code (MongoSync.name file)
             (Z.of_nat (length (MongoSync.getvalue file)))), w1) /\
    fst (Streamlit.download_section env code w1) =
      Ok (Streamlit.Offered (MongoSync.getvalue file) (MongoSync.name file)
            (MongoSync.type file) 1).
Proof.
  intros Hsize Hblob Hins Hfind Hopen Hfresh.
  destruct (generated_code_shape random_bytes) as [Hlen Hhex].
  eexists. eexists. split; [now apply upload_section_ok |].
  unfold Streamlit.download_section.
  rewrite upper_generated, (len_ascii _ (hex_is_ascii _ Hhex)), Hlen.
  assert (Hne : String.eqb (generate_download_code random_bytes 8) EmptyString
                = false).
  { destruct (generate_download_code random_bytes 8); [discriminate Hlen |].
    reflexivity. }
  rewrite Hne. cbn [negb andb Nat.eqb].
  unfold try_except, bind, MongoSync.get_file_by_code_sync, find_one,
    try_except, bind.
  rewrite Hfind. cbn [files]. unfold ret at 1 2.
  rewrite upper_generated, ui_lookup_after_upload by assumption.
  unfold MongoSync.download_file_from_mongodb_sync, open_download_stream,
    try_except, bind.
  cbn [gridfs_id ui_doc]. rewrite Hopen. cbn [gridfs].
  rewrite lookup_insert_eq. unfold ret at 1.
  match goal with
  | |- context [MongoSync.increment_download_count_sync env ?i ?w1] =>
      destruct (increment_sync_returns env i w1) as (b & w2 & Hinc);
      rewrite Hinc
  end.
  reflexivity.
Qed.

Lemma dashboard_store_then_fetch_witness :
  validate_file_size (Z.of_nat (length (MongoSync.getvalue hello_ui)))
    default_max_size = true /\
  ~ In (generate_download_code 5 8) (active_codes Mongo.empty) /\
  exists code w1,
    Streamlit.upload_section Mongo.no_faults 5 100 101 102 hello_ui Mongo.empty =
      (Ok (Streamlit.Uploaded code (MongoSync.name hello_ui)
             (Z.of_nat (length (MongoSync.getvalue hello_ui)))), w1) /\
    fst (Streamlit.download_section Mongo.no_faults code w1) =
      Ok (Streamlit.Offered (MongoSync.getvalue hello_ui)
            (MongoSync.name hello_ui) (MongoSync.type hello_ui) 1).
Proof.
  assert (Hfresh : ~ In (generate_download_code 5 8) (active_codes Mongo.empty)).
  { intros []. }
  split; [reflexivity | split; [exact Hfresh |]].
  exact (dashboard_store_then_fetch Mongo.no_faults 5 100 101 102 hello_ui
           Mongo.empty eq_refl eq_refl eq_refl eq_refl eq_refl Hfresh).
Defined.

(** X24.  The download tab of the dashboard only looks up codes of exactly
    8 characters: for any other text of ASCII characters it shows the
    length warning, or nothing when the field is empty, without touching
    the database, even if a record carries that code. *)
Theorem dashboard_length_gate (env : Env) (input : string) (w : World) :
  is_ascii input = true ->
  String.length input <> 8%nat ->
  Streamlit.download_section env input w =
  (Ok (if String.eqb input EmptyString then Streamlit.NoInput
       else Streamlit.BadLength), w).
Proof.
  intros Hascii Hlen. unfold Streamlit.download_section.
  rewrite (len_ascii _ (is_ascii_upper _ Hascii)).
  destruct (length_gate input) as [Hl He]. rewrite Hl, He.
  destruct (Nat.eqb_spec (String.length input) 8) as [Heq | _];
    [contradiction |].
  rewrite andb_false_r.
  destruct (String.eqb input EmptyString); reflexivity.
Qed.

Lemma dashboard_length_gate_witness :
  is_ascii "0000" = true /\
  String.length "0000" <> 8%nat /\
  Streamlit.download_section Mongo.no_faults "0000" w_hello =
  (Ok Streamlit.BadLength, w_hello).
Proof.
  assert (Hlen : String.length "0000" <> 8%nat) by discriminate.
  split; [reflexivity | split; [exact Hlen |]].
  exact (dashboard_length_gate Mongo.no_faults "0000" w_hello eq_refl Hlen).
Defined.

(** ** Codes that are taken, and what the endpoints raise *)

(** X25.  In the Supabase client a code stays taken for ever: when some
    row of the table carries the code, active or not, [create_file_record]
    with that code raises a 500 and leaves the table unchanged, so the
    code of a deactivated record cannot be issued again. *)
Theorem supabase_code_never_reusable
    (env : Supabase.Env) (uuid_bytes : Z) (t1 t2 : datetime) (file : UploadFile)
    (path : string) (days : Z) (r : Supabase.FileRecord) (w : Supabase.World) :
  In r (Supabase.rows w) ->
  exists d,
    Supabase.create_file_record env uuid_bytes t1 t2 (Supabase.download_code r)
      file path days w =
    (Raise (HTTPException 500 ("Failed to create file record: " ++ d)), w).
Proof.
  intros Hin.
  destruct (supabase_create_file_record_outcome env uuid_bytes t1 t2
              (Supabase.download_code r) file path days w)
    as [(x & _ & Hfree) | (why & Hrun)]; [| exists why; exact Hrun].
  exfalso. unfold clashes in Hfree.
  assert (Hex : existsb
            (fun r' => String.eqb (Supabase.id r')
                         (Supabase.id (new_row uuid_bytes t1
                                         (Supabase.download_code r) file path x)) ||
                       String.eqb (Supabase.download_code r')
                         (Supabase.download_code
                            (new_row uuid_bytes t1 (Supabase.download_code r)
                               file path x)))
            (Supabase.rows w) = true).
  { apply existsb_exists. exists r. split; [exact Hin |].
    cbn [new_row Supabase.download_code].
    rewrite String.eqb_refl. apply orb_true_r. }
  congruence.
Qed.

Lemma supabase_code_never_reusable_witness :
  In (Supabase.set_is_active false old_row)
    (Supabase.rows (snd (Supabase.cleanup_expired_files no_loop 300 sw_old))) /\
  exists d,
    Supabase.create_file_record no_loop 9 400 401 "ABCD1234" other
      "ABCD1234/b.bin" 7
      (snd (Supabase.cleanup_expired_files no_loop 300 sw_old)) =
    (Raise (HTTPException 500 ("Failed to create file record: " ++ d)),
     snd (Supabase.cleanup_expired_files no_loop 300 sw_old)).
Proof.
  assert (Hin : In (Supabase.set_is_active false old_row)
                  (Supabase.rows
                     (snd (Supabase.cleanup_expired_files no_loop 300 sw_old)))).
  { left. reflexivity. }
  split; [exact Hin |].
  exact (supabase_code_never_reusable no_loop 9 400 401 other "ABCD1234/b.bin"
           7 (Supabase.set_is_active false old_row)
           (snd (Supabase.cleanup_expired_files no_loop 300 sw_old)) Hin).
Defined.

(** X26.  What the endpoints of [main.py] can answer, whatever fails in
    the stores: upload and preview never raise, they always return a
    response.  Download returns the streamed file, or raises an
    [HTTPException] with status 404 and then leaves the database
    unchanged, or, when the name of the GridFS file or the type of the
    record cannot be written in Latin-1, raises status 500 [Download
    failed] with the database as the increment of the count left it.  No
    other exception leaves [download_file]. *)
Theorem main_endpoints_outcomes (env : Env) (w : World) :
  (forall random_bytes t_blob t_upload t_expiry file,
     exists resp w',
       upload_file env random_bytes t_blob t_upload t_expiry file w =
       (Ok resp, w')) /\
  (forall code, exists resp, preview_file env code w = (Ok resp, w)) /\
  (forall code,
     (exists r blob,
        List.find (by_code (upper code)) (files w) = Some r /\
        gridfs w !! gridfs_id r = Some blob /\
        latin1 (grid_filename blob) && latin1 (mime_type r) = true /\
        download_file env code w =
        (Ok (StreamingResponse (grid_data blob) (mime_type r)
               ("attachment; filename=" ++ dquote ++ grid_filename blob
                ++ dquote)),
         snd (increment_download_count env (_id r) w))) \/
     (exists d, download_file env code w = (Raise (HTTPException 404 d), w)) \/
     (exists r blob why,
        List.find (by_code (upper code)) (files w) = Some r /\
        gridfs w !! gridfs_id r = Some blob /\
        latin1 (grid_filename blob) && latin1 (mime_type r) = false /\
        download_file env code w =
        (Raise (HTTPException 500 ("Download failed: " ++ why)),
         snd (increment_download_count env (_id r) w)))).
Proof.
  split; [| split].
  - intros random_bytes t_blob t_upload t_expiry file.
    unfold upload_file, try_except.
    destruct (negb (validate_file_size (size file) default_max_size));
      [unfold ret; eauto |].
    match goal with
    | |- context [bind ?m ?k w] => destruct (bind m k w) as [[resp|e] w']
    end; unfold ret; eauto.
  - intros code. unfold preview_file, try_except, bind.
    pose proof (get_file_by_code_state env (upper code) w) as Hs.
    destruct (get_file_by_code env (upper code) w) as [[[r|]|e] w'];
      simpl in Hs; subst w'; unfold ret; eauto.
  - intros code.
    destruct (find_error env) as [m|] eqn:Hfind.
    { right. left. exists "Invalid download code"%string.
      unfold download_file, try_except, bind.
      now rewrite (get_file_by_code_outage env (upper code) m w Hfind). }
    destruct (List.find (by_code (upper code)) (files w)) as [r|] eqn:Hr.
    2:{ right. left. exists "Invalid download code"%string.
        apply (fetch_not_found env code w Hfind Hr). }
    destruct (open_error env (gridfs_id r)) as [m|] eqn:Hopen.
    { right. left. eexists.
      unfold download_file, try_except, bind.
      rewrite get_file_by_code_find by assumption. rewrite upper_idem, Hr.
      unfold download_file_from_mongodb, open_download_stream, try_except, bind.
      rewrite Hopen. reflexivity. }
    destruct (gridfs w !! gridfs_id r) as [blob|] eqn:Hblob.
    2:{ right. left. eexists.
        unfold download_file, try_except, bind.
        rewrite get_file_by_code_find by assumption. rewrite upper_idem, Hr.
        unfold download_file_from_mongodb, open_download_stream, try_except, bind.
        rewrite Hopen, Hblob. reflexivity. }
    pose proof (download_file_found env code w r blob Hfind Hr Hopen Hblob)
      as Hrun.
    destruct (latin1 (grid_filename blob) && latin1 (mime_type r)) eqn:Hl.
    + left. exists r, blob. auto.
    + right. right. exists r, blob, (exn_str UnicodeEncodeError). auto.
Qed.

Section SupabaseTaskFacts.

Variable env : Supabase.Env.

Lemma supabase_loop_tasks (l : list Supabase.FileRecord) :
  forall (n : Z) (w : Supabase.World),
  exists w',
    Supabase.cleanup_loop env l n w = (Ok (n + Z.of_nat (length l)), w') /\
    Supabase.rows w' = Supabase.rows w /\
    Supabase.storage w' = Supabase.storage w /\
    Supabase.tasks w' =
      Supabase.tasks w ++
      (if Supabase.loop_running env then map Supabase.storage_path l else []).
Proof.
  induction l as [|r l IH]; intros n w.
  - exists w. simpl. unfold ret. rewrite Z.add_0_r.
    repeat split. destruct (Supabase.loop_running env); now rewrite app_nil_r.
  - simpl Supabase.cleanup_loop.
    unfold bind, try_except, Supabase.create_delete_task.
    destruct (Supabase.loop_running env) eqn:Hloop; simpl.
    + match goal with
      | |- context [Supabase.cleanup_loop env l (n + 1) ?w1] =>
          destruct (IH (n + 1) w1) as (w' & Hrun & Hr & Hs & Ht)
      end.
      exists w'. rewrite Hrun. simpl in *.
      split; [do 2 f_equal; lia |]. split; [exact Hr |]. split; [exact Hs |].
      rewrite Ht, <- app_assoc. reflexivity.
    + destruct (IH (n + 1) w) as (w' & Hrun & Hr & Hs & Ht).
      exists w'. rewrite Hrun.
      split; [do 2 f_equal; lia |]. split; [exact Hr |]. split; [exact Hs |].
      exact Ht.
Qed.

End SupabaseTaskFacts.

(** X28.  In the sweep of the Supabase client the deletions of the
    storage objects are handed over before the commit: when an event loop
    is running and the commit then fails, the sweep returns 0 and the rows
    keep [is_active = True], yet the deletion of the storage object of
    every expired active row has been scheduled. *)
Theorem supabase_sweep_commit_failure
    (env : Supabase.Env) (now : datetime) (msg : string) (w : Supabase.World) :
  Supabase.query_error env = None ->
  Supabase.commit_error env = Some msg ->
  Supabase.loop_running env = true ->
  let run := Supabase.cleanup_expired_files env now w in
  fst run = Ok 0 /\
  Supabase.rows (snd run) = Supabase.rows w /\
  Supabase.storage (snd run) = Supabase.storage w /\
  Supabase.tasks (snd run) =
    Supabase.tasks w ++
    map Supabase.storage_path
      (List.filter (Supabase.expired now) (Supabase.rows w)).
Proof.
  intros Hq Hc Hloop run. subst run.
  unfold Supabase.cleanup_expired_files, Supabase.query_all,
    Supabase.update_commit, try_except, bind.
  rewrite Hq, Hc.
  destruct (supabase_loop_tasks env
              (List.filter (Supabase.expired now) (Supabase.rows w)) 0 w)
    as (w1 & Hrun & Hr & Hs & Ht).
  rewrite Hrun. simpl. rewrite Hloop in Ht. auto.
Qed.

Lemma supabase_sweep_commit_failure_witness :
  Supabase.commit_error commit_down = Some "connection lost"%string /\
  fst (Supabase.cleanup_expired_files commit_down 300 sw_old) = Ok 0 /\
  Supabase.rows (snd (Supabase.cleanup_expired_files commit_down 300 sw_old)) =
    [old_row] /\
  Supabase.tasks (snd (Supabase.cleanup_expired_files commit_down 300 sw_old)) =
    ["ABCD1234/a.txt"%string].
Proof.
  split; [reflexivity |].
  destruct (supabase_sweep_commit_failure commit_down 300 "connection lost"
              sw_old eq_refl eq_refl eq_refl) as (H1 & H2 & _ & H4).
  split; [exact H1 | split; [exact H2 | exact H4]].
Defined.
